(** * Fitnesspark utilization tracker: ingestion, source resolution, aggregates

    A shallow embedding of
    - [update_data.js]   (the static updater, cron driven),
    - [server/server.js] (the background server),
    - [services/gymService] (source resolver and browser-side sampler),
    - [App.tsx]          (the embedded refresh logic),
    - [components/Charts.tsx] (the aggregates),
    followed by the properties proved about them.

    Conventions of the model.
    - A JavaScript number that holds an integer (epoch milliseconds, a
      visitor count) is a [Z]; the model is exact below 2^53.
    - A text is a [string] of 8-bit code units.
    - [Date.now()], the network and the file system are inputs: every
      function that reads them takes what it read as an argument, one
      argument per read.
    - A JavaScript object used as a dictionary is a [gmap string _]
      holding its own members; a member the object has not is looked up
      on [Object.prototype], as the runtime does ([Js.read]). *)

From Stdlib Require Import ZArith String Ascii List Lia Bool DecimalString.
From Stdlib Require DecimalPos.
From stdpp Require Import base tactics option numbers list strings gmap.
Import ListNotations.
Local Open Scope Z_scope.

(** ** Data model ([types.ts]) *)

Record DataPoint := mkPoint {
  timestamp : Z;
  visitors : Z;
  maxCapacity : Z
}.

Record GymConfig := mkConfig {
  id : string;
  name : string;
  parkId : string;
  locationId : string;
  locationName : string
}.

Record GymData := mkGym {
  config : GymConfig;
  current : option DataPoint;
  history : list DataPoint;
  lastUpdated : Z
}.

#[global] Instance DataPoint_eq_dec : EqDecision DataPoint.
Proof. solve_decision. Defined.

#[global] Instance GymConfig_eq_dec : EqDecision GymConfig.
Proof. solve_decision. Defined.

#[global] Instance GymData_eq_dec : EqDecision GymData.
Proof. solve_decision. Defined.

(** The backing document: facility id to its samples, newest last. *)
Abbreviation DB := (gmap string (list DataPoint)).

(** What one HTTP request for the visitor count came back with: [fetch]
    or the reading of the body rejected, or a response with its [ok]
    flag and body text. *)
Inductive Response :=
| NetworkError
| Reply (ok : bool) (text : string).

(** What the file system holds under [gym_history.json]. *)
Inductive BackingFile :=
| Missing                  (* existsSync is false *)
| Unreadable               (* readFileSync throws *)
| Malformed                (* JSON.parse throws *)
| Document (doc : DB).     (* an object whose members are arrays of samples *)

(** Observable effects of a batch, in program order. *)
Inductive Event :=
| EvFetch (facility : string)
| EvWrite (doc : DB).

(** A computation that may throw. *)
Inductive Result (A : Type) :=
| Returns (a : A)
| Throws.
Arguments Returns {A} a.
Arguments Throws {A}.

(** ** The JavaScript built-ins the code relies on *)
Module Js.

(** [arr.slice(-n)]: the last [n] elements, all of them if fewer. *)
Definition slice_last {A} (n : Z) (l : list A) : list A :=
  drop (length l - Z.to_nat n)%nat l.

(** White space stripped by [String.prototype.trim] and skipped by
    [parseInt], within the 8-bit range: TAB, LF, VT, FF, CR, SP, NBSP. *)
Definition isWhiteSpace (c : ascii) : bool :=
  let n := nat_of_ascii c in
  ((9 <=? n) && (n <=? 13) || (n =? 32) || (n =? 160))%nat.

Fixpoint trimStart (s : string) : string :=
  match s with
  | String c s' => if isWhiteSpace c then trimStart s' else s
  | EmptyString => EmptyString
  end.

Fixpoint reverse (s acc : string) : string :=
  match s with
  | String c s' => reverse s' (String c acc)
  | EmptyString => acc
  end.

Definition trimEnd (s : string) : string :=
  reverse (trimStart (reverse s EmptyString)) EmptyString.

Definition trim (s : string) : string := trimEnd (trimStart s).

Definition isDigit (c : ascii) : bool :=
  let n := nat_of_ascii c in ((48 <=? n) && (n <=? 57))%nat.

Definition digitValue (c : ascii) : Z := Z.of_nat (nat_of_ascii c) - 48.

(** The longest prefix of decimal digits, as a number; [None] when that
    prefix is empty. *)
Fixpoint digits (s : string) (acc : option Z) : option Z :=
  match s with
  | String c s' =>
      if isDigit c
      then digits s' (Some (10 * default 0 acc + digitValue c))
      else acc
  | EmptyString => acc
  end.

(** [parseInt(s, 10)]; [None] stands for NaN.  Leading white space is
    skipped, one sign is accepted, then the longest run of digits is
    read and whatever follows is ignored. *)
Definition parseInt10 (s : string) : option Z :=
  match trimStart s with
  | String c r =>
      if Ascii.eqb c "-" then Z.opp <$> digits r None
      else if Ascii.eqb c "+" then digits r None
      else digits (String c r) None
  | EmptyString => None
  end.

(** [Math.round(a / b)] for integers [a] and [b > 0]: the quotient
    rounded to the nearest integer, a half rounded up. *)
Definition round_div (a b : Z) : Z := (2 * a + b) / (2 * b).

Definition msPerDay : Z := 86400000.

Section LocalTime.
(** The runtime's offset of local time from UTC, in milliseconds, at a
    given instant (time zone and daylight saving). *)
Variable tzOffset : Z -> Z.

(** [new Date(t).getDay()]: 0 is Sunday; 1 January 1970 was a
    Thursday. *)
Definition getDay (t : Z) : nat :=
  Z.to_nat (((t + tzOffset t) / msPerDay + 4) mod 7).
End LocalTime.

Definition msPerHour : Z := 3600000.

Section LocalHours.
(** The runtime's offset of local time from UTC, as for [getDay]. *)
Variable tzOffset : Z -> Z.

(** [new Date(t).getHours()]: the hour of the day, 0 to 23. *)
Definition getHours (t : Z) : nat :=
  Z.to_nat (((t + tzOffset t) / msPerHour) mod 24).
End LocalHours.

(** What a plain object inherits from [Object.prototype]: eleven methods
    and the accessor [__proto__], which yields the prototype itself.
    Every one of them is truthy and none is an array. *)
Inductive Inherited :=
| Method
| Prototype.

Definition objectPrototype (k : string) : option Inherited :=
  if existsb (String.eqb k)
       ["constructor"; "hasOwnProperty"; "isPrototypeOf";
        "propertyIsEnumerable"; "toLocaleString"; "toString"; "valueOf";
        "__defineGetter__"; "__defineSetter__"; "__lookupGetter__";
        "__lookupSetter__"]
  then Some Method
  else if String.eqb k "__proto__" then Some Prototype
  else None.

(** [db[k]] for a document [db]: a member of its own, else what the
    prototype has under that name, else [undefined]. *)
Inductive Member :=
| Own (h : list DataPoint)
| Inherits (v : Inherited)
| Undefined.

Definition read (db : DB) (k : string) : Member :=
  match db !! k with
  | Some h => Own h
  | None =>
      match objectPrototype k with
      | Some v => Inherits v
      | None => Undefined
      end
  end.

(** An integer interpolated into a template or passed to [toString()]:
    its decimal digits, after a minus sign when it is negative. *)
Definition toString (n : Z) : string :=
  NilEmpty.string_of_int (Z.to_int n).

(** [s.startsWith(p)]. *)
Definition startsWith (p s : string) : bool := String.prefix p s.

(** [s.indexOf(c)] for a single character; [None] stands for -1. *)
Fixpoint indexOf (c : ascii) (s : string) : option nat :=
  match s with
  | EmptyString => None
  | String c' s' =>
      if Ascii.eqb c' c then Some 0%nat else S <$> indexOf c s'
  end.

(** [s.substring(i)]: the text from index [i] on. *)
Fixpoint substringFrom (i : nat) (s : string) : string :=
  match i, s with
  | O, _ => s
  | S i', String _ s' => substringFrom i' s'
  | S _, EmptyString => EmptyString
  end.

End Js.

(** ** update_data.js: the static updater *)
Module Updater.

Record Gym := mkGym { id : string; url : string }.

Definition GYMS : list Gym :=
  [ {| id := "glattpark";
       url := "https://www.fitnesspark.ch/wp/wp-admin/admin-ajax.php?action=single_park_update_visitors&park_id=698&location_id=31&location_name=FP_Glattpark" |} ].

(** What one iteration of the loop reads from outside: the response to
    the request, [Date.now()] when the new point is built and
    [Date.now()] again in the duplicate check. *)
Record Sampling := mkSampling {
  reply : Response;
  t_sample : Z;
  t_check : Z
}.

Definition fetchVisitors (r : Response) : option Z :=
  match r with
  | NetworkError => None
  | Reply ok text => if ok then Js.parseInt10 (Js.trim text) else None
  end.

(** Step 1 of [run]: load the existing data. *)
Definition load (f : BackingFile) : DB :=
  match f with
  | Missing => ∅
  | Unreadable => ∅
  | Malformed => ∅
  | Document doc => doc
  end.

(** The body of the loop of [run] for one gym. *)
Definition update_gym (g : Gym) (w : Sampling) (db : DB) : DB :=
  match fetchVisitors (reply w) with
  | None => db
  | Some v =>
      let h := default [] (db !! id g) in
      let newPoint :=
        {| timestamp := t_sample w; visitors := v; maxCapacity := 300 |} in
      let h1 :=
        match last h with
        | None => h ++ [newPoint]
        | Some l =>
            if 60000 <? t_check w - timestamp l
            then h ++ [newPoint]
            else h
        end in
      let h2 :=
        if 5000 <? Z.of_nat (length h1) then Js.slice_last 5000 h1 else h1 in
      <[id g := h2]> db
  end.

(** Step 2 of [run]: the loop, threading the document and the trace of
    effects; [world i] is what iteration [i] reads. *)
Fixpoint loop (i : nat) (gyms : list Gym) (world : nat -> Sampling)
    (db : DB) (tr : list Event) : DB * list Event :=
  match gyms with
  | [] => (db, tr)
  | g :: rest =>
      loop (S i) rest world (update_gym g (world i) db)
           (tr ++ [EvFetch (id g)])
  end.

(** [run] over a given list of gyms: load, loop, save. *)
Definition run_with (gyms : list Gym) (f : BackingFile)
    (world : nat -> Sampling) : DB * list Event :=
  let '(db, tr) := loop 0 gyms world (load f) [] in
  (db, tr ++ [EvWrite db]).

Definition run := run_with GYMS.

(** Any number of loop iterations, over any gyms. *)
Definition updates (steps : list (Gym * Sampling)) (db : DB) : DB :=
  foldl (fun d s => update_gym (fst s) (snd s) d) db steps.

End Updater.

(** ** server/server.js: the background server *)
Module Server.

Record Gym := mkGym { cfg : GymConfig; url : string }.

Definition glattpark : Gym :=
  {| cfg := {| id := "glattpark"; name := "FP Glattpark"; parkId := "698";
               locationId := "31"; locationName := "FP_Glattpark" |};
     url := "https://www.fitnesspark.ch/wp/wp-admin/admin-ajax.php?action=single_park_update_visitors&park_id=698&location_id=31&location_name=FP_Glattpark" |}.

(** The initial value of [gyms]. *)
Definition gyms0 : list Gym := [glattpark].

(** The initial value of [db]. *)
Definition db0 : DB := {[ "glattpark" := [] ]}.

(** [RAW_SEED_DATA], one row per line, already split into its fields:
    day, month, year, hour, minute, visitors. *)
Definition RAW_SEED_DATA : list (Z * Z * Z * Z * Z * Z) :=
  [
    (20, 6, 2025, 11, 14, 78);
    (20, 6, 2025, 11, 33, 76);
    (20, 6, 2025, 12, 3, 90);
    (20, 6, 2025, 13, 11, 130);
    (20, 6, 2025, 13, 40, 96);
    (20, 6, 2025, 14, 10, 65);
    (20, 6, 2025, 14, 40, 57);
    (20, 6, 2025, 15, 10, 67);
    (20, 6, 2025, 15, 39, 68);
    (20, 6, 2025, 16, 9, 70);
    (20, 6, 2025, 16, 39, 80);
    (20, 6, 2025, 17, 9, 85);
    (20, 6, 2025, 17, 38, 107);
    (20, 6, 2025, 18, 8, 122);
    (20, 6, 2025, 18, 38, 126);
    (20, 6, 2025, 19, 8, 109);
    (20, 6, 2025, 19, 38, 110);
    (20, 6, 2025, 20, 7, 105);
    (20, 6, 2025, 20, 37, 94);
    (20, 6, 2025, 21, 7, 76);
    (20, 6, 2025, 21, 31, 57);
    (20, 6, 2025, 21, 36, 57);
    (21, 6, 2025, 8, 4, 3);
    (21, 6, 2025, 8, 13, 3);
    (21, 6, 2025, 8, 48, 69);
    (21, 6, 2025, 9, 18, 95);
    (21, 6, 2025, 9, 47, 120);
    (21, 6, 2025, 10, 17, 170);
    (21, 6, 2025, 10, 47, 184);
    (21, 6, 2025, 11, 17, 169);
    (21, 6, 2025, 11, 46, 148);
    (21, 6, 2025, 12, 16, 149);
    (21, 6, 2025, 12, 46, 146);
    (21, 6, 2025, 13, 16, 135);
    (21, 6, 2025, 13, 46, 118);
    (21, 6, 2025, 14, 56, 80);
    (21, 6, 2025, 15, 25, 76);
    (21, 6, 2025, 15, 55, 67);
    (21, 6, 2025, 16, 25, 68);
    (21, 6, 2025, 16, 55, 78);
    (21, 6, 2025, 17, 24, 79);
    (21, 6, 2025, 17, 54, 79);
    (21, 6, 2025, 18, 24, 63);
    (21, 6, 2025, 18, 54, 65);
    (21, 6, 2025, 19, 24, 65)
  ].

(** [arr.sort((a,b) => a.timestamp - b.timestamp)]: a stable sort. *)
Fixpoint insert_by_timestamp (x : DataPoint) (l : list DataPoint)
    : list DataPoint :=
  match l with
  | [] => [x]
  | y :: l' =>
      if timestamp x <? timestamp y then x :: l
      else y :: insert_by_timestamp x l'
  end.

Definition sort_by_timestamp (l : list DataPoint) : list DataPoint :=
  foldl (fun acc x => insert_by_timestamp x acc) [] l.

Section Runtime.
(** [new Date(year, monthIndex, day, hour, minute).getTime()] of the
    runtime: local civil time to epoch milliseconds. *)
Variable localEpoch : Z -> Z -> Z -> Z -> Z -> Z.

Definition parseCustomDate (day month year hour minute : Z) : Z :=
  localEpoch year (month - 1) day hour minute.

Definition seedHistory : list DataPoint :=
  sort_by_timestamp
    (map (fun '(d, mo, y, h, mi, v) =>
            {| timestamp := parseCustomDate d mo y h mi;
               visitors := v;
               maxCapacity := 300 |})
         RAW_SEED_DATA).

(** [initDB]: the document in memory after start-up and what was
    written, or an exception that nothing catches.  [save_ok] tells
    whether [writeFileSync] in [saveDB] succeeds, were it called. *)
Definition initDB (f : BackingFile) (save_ok : bool)
    : Result (DB * list Event) :=
  match f with
  | Missing =>
      let db := <["glattpark" := seedHistory]> db0 in
      if save_ok then Returns (db, [EvWrite db]) else Throws
  | Unreadable => Throws
  | Malformed => Throws
  | Document doc => Returns (doc, [])
  end.
End Runtime.

(** What one call of [fetchGymData] reads from outside: the response,
    [Date.now()], and whether [writeFileSync] in [saveDB] succeeds. *)
Record Sampling := mkSampling {
  reply : Response;
  now : Z;
  save_ok : bool
}.

(** [fetchGymData] from the moment the request settles: the new
    document, the writes done, and the returned value ([None] for
    [null]).  Everything after the [try] that throws ends in the
    [catch], which returns [null]: a failing request or parse, [push]
    called on an inherited member, which is no array, and a failing
    write. *)
Definition fetchGymData (g : Gym) (w : Sampling) (db : DB)
    : DB * list Event * option DataPoint :=
  match reply w with
  | NetworkError => (db, [], None)
  | Reply ok text =>
      if negb ok then (db, [], None)
      else
        match Js.parseInt10 (Js.trim text) with
        | None => (db, [], None)
        | Some v =>
            let dataPoint :=
              {| timestamp := now w; visitors := v; maxCapacity := 300 |} in
            let push h :=
              let db' := <[id (cfg g) := h ++ [dataPoint]]> db in
              if save_ok w
              then (db', [EvWrite db'], Some dataPoint)
              else (db', [], None) in
            match Js.read db (id (cfg g)) with
            | Js.Own h => push h
            | Js.Undefined => push []
            | Js.Inherits _ => (db, [], None)
            end
        end
  end.

(** [runJob] run alone: the gyms one after the other; [world i] is what
    the call for the gym at index [i] reads. *)
Fixpoint runJob_from (i : nat) (gyms : list Gym) (world : nat -> Sampling)
    (db : DB) (tr : list Event) : DB * list Event :=
  match gyms with
  | [] => (db, tr)
  | g :: rest =>
      let '(db', writes, _) := fetchGymData g (world i) db in
      runJob_from (S i) rest world db'
                  (tr ++ EvFetch (id (cfg g)) :: writes)
  end.

Definition runJob (gyms : list Gym) (world : nat -> Sampling) (db : DB)
    : DB * list Event :=
  runJob_from 0 gyms world db [].

(** The member [history] of an entry of the response of
    [GET /api/gyms], as [res.json] sends it: an array of samples;
    nothing, for a function, which [JSON.stringify] leaves out; the
    empty object, for [Object.prototype], which has no enumerable
    member. *)
Inductive Listing :=
| Samples (h : list DataPoint)
| Omitted
| EmptyObject.

Record Entry := mkEntry {
  entry_config : GymConfig;
  entry_history : Listing;
  entry_current : option DataPoint;
  entry_lastUpdated : Z
}.

(** [GET /api/gyms]: the view handed to the frontend.  For an inherited
    member [history.length] is the number of parameters of a function,
    or [undefined], and there is no indexed member: [current] is
    [undefined] or [null], and [lastUpdated] is 0. *)
Definition api_gyms (gyms : list Gym) (db : DB) : list Entry :=
  map (fun g =>
         match Js.read db (id (cfg g)) with
         | Js.Own history =>
             let current := last history in
             {| entry_config := cfg g;
                entry_history := Samples history;
                entry_current := current;
                entry_lastUpdated := from_option timestamp 0 current |}
         | Js.Undefined =>
             {| entry_config := cfg g;
                entry_history := Samples [];
                entry_current := None;
                entry_lastUpdated := 0 |}
         | Js.Inherits Js.Method =>
             {| entry_config := cfg g;
                entry_history := Omitted;
                entry_current := None;
                entry_lastUpdated := 0 |}
         | Js.Inherits Js.Prototype =>
             {| entry_config := cfg g;
                entry_history := EmptyObject;
                entry_current := None;
                entry_lastUpdated := 0 |}
         end)
      gyms.

(** A [GymData] as it reads in a response. *)
Definition listed (g : GymData) : Entry :=
  {| entry_config := config g;
     entry_history := Samples (history g);
     entry_current := current g;
     entry_lastUpdated := lastUpdated g |}.

(** *** The server as an event loop

    [runJob] suspends at every [await]; between two suspensions any
    other handler may run.  A task is a call in flight: a batch
    ([runJob], waiting for the gym at index [pc] of the shared array
    [gyms]) or the single fetch started by [POST /api/gyms]. *)
Inductive Trigger := Startup | Timer | RefreshRequest.

Inductive Task :=
| Batch (pc : nat)
| Single (g : Gym).

Record State := mkState {
  db : DB;
  gyms : list Gym;
  tasks : list Task;
  trace : list Event
}.

Inductive Input :=
| Fire (t : Trigger)                  (* runJob() is called *)
| AddGym (g : Gym)                    (* POST /api/gyms *)
| Settles (k : nat) (w : Sampling).   (* the request of task k settles *)

Definition is_batch (t : Task) : bool :=
  match t with Batch _ => true | Single _ => false end.

(** The number of batches in flight. *)
Definition running (s : State) : nat :=
  length (List.filter is_batch (tasks s)).

(** [runJob()] up to its first [await]. *)
Definition start_batch (s : State) : State :=
  match gyms s with
  | [] => s
  | g :: _ =>
      {| db := db s; gyms := gyms s;
         tasks := tasks s ++ [Batch 0];
         trace := trace s ++ [EvFetch (id (cfg g))] |}
  end.

Definition step (s : State) (i : Input) : State :=
  match i with
  | Fire _ => start_batch s
  | AddGym g =>
      if (String.eqb (id (cfg g)) "" || String.eqb (url g) "")%bool
      then s
      else {| db := db s; gyms := gyms s ++ [g];
              tasks := tasks s ++ [Single g];
              trace := trace s ++ [EvFetch (id (cfg g))] |}
  | Settles k w =>
      match tasks s !! k with
      | None => s
      | Some (Single g) =>
          let '(db', writes, _) := fetchGymData g w (db s) in
          {| db := db'; gyms := gyms s;
             tasks := delete k (tasks s);
             trace := trace s ++ writes |}
      | Some (Batch pc) =>
          match gyms s !! pc with
          | None => s
          | Some g =>
              let '(db', writes, _) := fetchGymData g w (db s) in
              match gyms s !! S pc with
              | Some g' =>
                  {| db := db'; gyms := gyms s;
                     tasks := <[k := Batch (S pc)]> (tasks s);
                     trace := trace s ++ writes ++ [EvFetch (id (cfg g'))] |}
              | None =>
                  {| db := db'; gyms := gyms s;
                     tasks := delete k (tasks s);
                     trace := trace s ++ writes |}
              end
          end
      end
  end.

Definition exec (s : State) (inputs : list Input) : State :=
  foldl step s inputs.

(** The state once [initDB] has returned [d], before [runJob()] on the
    next line is called. *)
Definition booted (d : DB) : State :=
  {| db := d; gyms := gyms0; tasks := []; trace := [] |}.

End Server.

(** ** services/gymService: source resolver and browser-side sampler *)
Module GymService.

(** The tag returned with the loaded state. *)
Inductive Source := server | cloud | local.

(** The origins [loadGyms] can consult. *)
Inductive Origin := Primary | Snapshot | Cache | Seed.

#[global] Instance Source_eq_dec : EqDecision Source.
Proof. solve_decision. Defined.

(** What a [fetch] followed by [response.json()] yields, were it
    issued: [fetch] rejects, the response is not [ok], the body does not
    decode to a document, or the decoded document. *)
Inductive Fetched (A : Type) :=
| FetchThrows
| NotOk
| BadJson
| Json (a : A).
Arguments FetchThrows {A}.
Arguments NotOk {A}.
Arguments BadJson {A}.
Arguments Json {A} a.

(** What [localStorage.getItem(STORAGE_KEY)] followed by [JSON.parse]
    yields: nothing stored (or the empty text, which is falsy), a text
    that does not parse, or the decoded value. *)
Inductive Stored (A : Type) :=
| NoItem
| Unparsable
| Parsed (a : A).
Arguments NoItem {A}.
Arguments Unparsable {A}.
Arguments Parsed {A} a.

Definition DEFAULT_GYMS : list GymConfig :=
  [ {| id := "glattpark"; name := "FP Glattpark"; parkId := "698";
       locationId := "31"; locationName := "FP_Glattpark" |} ].

Section InitialData.
(** [parseRawData(RAW_DATA_GLATTPARK)]: both names are imported from
    [data/initialData], which is not among the sources at hand; the
    value is taken as given. *)
Variable realHistory : list DataPoint.

(** Tier 2: the view built from the published history document. *)
Definition cloudData (historyDb : DB) : list GymData :=
  map (fun config =>
         let history := default [] (historyDb !! id config) in
         let lastPoint := last history in
         {| config := config;
            history := history;
            current := lastPoint;
            lastUpdated := from_option timestamp 0 lastPoint |})
      DEFAULT_GYMS.

(** Tier 4: the seed, built on the very first run. *)
Definition seedData (now : Z) : list GymData :=
  map (fun config =>
         let history :=
           if String.eqb (id config) "glattpark" then realHistory else [] in
         let lastPoint := last history in
         {| config := config;
            history := history;
            current := lastPoint;
            lastUpdated := from_option timestamp now lastPoint |})
      DEFAULT_GYMS.

(** [loadGyms]; the arguments are what each origin answers if asked,
    and [Date.now()].  Beside the returned value, the origins consulted,
    in the order they were. *)
Definition loadGyms (primary : Fetched (list GymData))
    (snapshot : Fetched DB) (stored : Stored (list GymData)) (now : Z)
    : (list GymData * Source) * list Origin :=
  match primary with
  | Json serverData => ((serverData, server), [Primary])
  | _ =>
      match snapshot with
      | Json historyDb => ((cloudData historyDb, cloud), [Primary; Snapshot])
      | _ =>
          match stored with
          | Parsed parsed => ((parsed, local), [Primary; Snapshot; Cache])
          | _ => ((seedData now, local), [Primary; Snapshot; Cache; Seed])
          end
      end
  end.
End InitialData.

(** [fetchGymData]: the response to the request and [Date.now()] in,
    the sample or [None] (for [null]) out. *)
Definition fetchGymData (r : Response) (now : Z) : option DataPoint :=
  match r with
  | NetworkError => None
  | Reply ok text =>
      if negb ok then None
      else
        match Js.parseInt10 (Js.trim text) with
        | None => None
        | Some v =>
            let max := 300 in
            Some {| timestamp := now; visitors := v; maxCapacity := max |}
        end
  end.

End GymService.

(** ** App.tsx: the embedded refresh logic *)
Module App.

(** What refreshing one gym reads from outside: the response,
    [Date.now()] inside [fetchGymData] and [Date.now()] for
    [lastUpdated]. *)
Record Sampling := mkSampling {
  reply : Response;
  t_sample : Z;
  t_done : Z
}.

(** The function mapped over [gyms] in [refreshAllGyms]. *)
Definition refreshGym (gym : GymData) (w : Sampling) : GymData :=
  match GymService.fetchGymData (reply w) (t_sample w) with
  | None => gym
  | Some newDataPoint =>
      let updatedHistory :=
        Js.slice_last 5000 (history gym ++ [newDataPoint]) in
      {| config := config gym;
         current := Some newDataPoint;
         history := updatedHistory;
         lastUpdated := t_done w |}
  end.

(** [updatedGyms] of [refreshAllGyms]: [world i] is what the gym at
    index [i] reads. *)
Definition refreshAllGyms (gyms : list GymData) (world : nat -> Sampling)
    : list GymData :=
  imap (fun i gym => refreshGym gym (world i)) gyms.

(** *** The component as a state machine

    A batch in flight keeps the [gyms] its closure captured. *)
Record State := mkState {
  gyms : list GymData;
  isLoading : bool;
  inflight : list (list GymData)
}.

Inductive Input :=
| ClickRefresh                        (* the header button *)
| IntervalFires                       (* setInterval, 30 minutes *)
| StalenessCheck (clock : nat -> Z)   (* the effect; a clock read per gym *)
| BatchSettles (k : nat) (world : nat -> Sampling).

Definition isStale (clock : nat -> Z) (gyms : list GymData) : bool :=
  existsb (fun b : bool => b)
    (imap (fun i g =>
             match current g with
             | None => true
             | Some _ => 5 * 60 * 1000 <? clock i - lastUpdated g
             end)
          gyms).

(** [refreshAllGyms()] up to its [await]. *)
Definition start (s : State) : State :=
  {| gyms := gyms s; isLoading := true;
     inflight := inflight s ++ [gyms s] |}.

Definition step (s : State) (i : Input) : State :=
  match i with
  | ClickRefresh => if isLoading s then s else start s
  | IntervalFires => start s
  | StalenessCheck clock =>
      if (negb (isLoading s) && (0 <? length (gyms s))%nat)%bool
      then (if isStale clock (gyms s) then start s else s)
      else s
  | BatchSettles k world =>
      match inflight s !! k with
      | None => s
      | Some captured =>
          {| gyms := refreshAllGyms captured world;
             isLoading := false;
             inflight := delete k (inflight s) |}
      end
  end.

Definition running (s : State) : nat := length (inflight s).

(** *** Adding a gym ([handleAddGym], not in server mode)

    First the new gym joins the state with an empty history; when its
    fetch settles with a sample, every gym with that id takes the
    sample as its whole history. *)
Definition newGym (config' : GymConfig) : GymData :=
  {| config := config'; current := None; history := []; lastUpdated := 0 |}.

Definition handleAddGym_joined (config' : GymConfig) (prev : list GymData)
    : list GymData :=
  prev ++ [newGym config'].

(** [data] is what [fetchGymData] resolved to, [t_done] the
    [Date.now()] read for [lastUpdated]. *)
Definition handleAddGym_fetched (config' : GymConfig)
    (data : option DataPoint) (t_done : Z) (prev : list GymData)
    : list GymData :=
  match data with
  | None => prev
  | Some data =>
      map (fun g =>
             if String.eqb (id (config g)) (id config')
             then {| config := config g; current := Some data;
                     history := [data]; lastUpdated := t_done |}
             else g)
          prev
  end.

End App.

(** ** components/Charts.tsx: the aggregates *)
Module Charts.

Definition oneDay : Z := 24 * 60 * 60 * 1000.

Record RecentPoint := mkRecentPoint {
  point_time : string;
  point_visitors : Z;
  point_timestamp : Z;
  point_date : string
}.

Record DayAverage := mkDayAverage {
  day : string;
  avg : Z
}.

Definition days : list string :=
  ["Sun"; "Mon"; "Tue"; "Wed"; "Thu"; "Fri"; "Sat"].

(** The samples charted by [RecentActivityChart]. *)
Definition recent (now : Z) (data : list DataPoint) : list DataPoint :=
  let recent := List.filter (fun d => now - oneDay <? timestamp d) data in
  if ((length recent =? 0)%nat && (0 <? length data)%nat)%bool
  then Js.slice_last 20 data
  else recent.

(** The two accumulators of [DayAverageChart] after the [forEach]. *)
Definition accumulate (dayOf : Z -> nat) (data : list DataPoint)
    : list Z * list Z :=
  foldl (fun acc d =>
           let dayIndex := dayOf (timestamp d) in
           (alter (fun s => s + visitors d) dayIndex (fst acc),
            alter (fun c => c + 1) dayIndex (snd acc)))
        (replicate 7 0, replicate 7 0) data.

Section Runtime.
(** [toLocaleTimeString] and [toLocaleDateString] of the runtime. *)
Variables formatTime formatDate : Z -> string.
(** The runtime's offset of local time from UTC. *)
Variable tzOffset : Z -> Z.

(** [chartData] of [RecentActivityChart]; [now] is [Date.now()]. *)
Definition RecentActivityChart (now : Z) (data : list DataPoint)
    : list RecentPoint :=
  map (fun d =>
         {| point_time := formatTime (timestamp d);
            point_visitors := visitors d;
            point_timestamp := timestamp d;
            point_date := formatDate (timestamp d) |})
      (recent now data).

(** [chartData] of [DayAverageChart]. *)
Definition DayAverageChart (data : list DataPoint) : list DayAverage :=
  let '(sums, counts) := accumulate (Js.getDay tzOffset) data in
  imap (fun i day =>
          {| day := day;
             avg := if 0 <? default 0 (counts !! i)
                    then Js.round_div (default 0 (sums !! i))
                                      (default 0 (counts !! i))
                    else 0 |})
       days.
End Runtime.

Record HourAverage := mkHourAverage {
  time : string;
  hour_avg : Z
}.

(** The two accumulators of [DailyHourlyChart] after the [forEach]:
    only the samples of day-of-week [currentDay] are entered, under their
    hour. *)
Definition accumulateHours (dayOf hourOf : Z -> nat) (currentDay : nat)
    (data : list DataPoint) : list Z * list Z :=
  foldl (fun acc d =>
           if Nat.eqb (dayOf (timestamp d)) currentDay
           then
             let hour := hourOf (timestamp d) in
             (alter (fun s => s + visitors d) hour (fst acc),
              alter (fun c => c + 1) hour (snd acc))
           else acc)
        (replicate 24 0, replicate 24 0) data.

(** [chartData] of [DailyHourlyChart]; [now] is the time read by
    [new Date()]. *)
Definition DailyHourlyChart (tzOffset : Z -> Z) (now : Z)
    (data : list DataPoint) : list HourAverage :=
  let currentDay := Js.getDay tzOffset now in
  let '(hourSums, hourCounts) :=
    accumulateHours (Js.getDay tzOffset) (Js.getHours tzOffset) currentDay
                    data in
  map (fun h =>
         {| time := Js.toString (Z.of_nat h) ++ ":00";
            hour_avg := if 0 <? default 0 (hourCounts !! h)
                        then Js.round_div (default 0 (hourSums !! h))
                                          (default 0 (hourCounts !! h))
                        else 0 |})
      (seq 6 17).

End Charts.

(** ** services/geminiService: the prediction request *)
Module GeminiService.

Inductive Trend := Rising | Falling | Stable.

Record PredictionResult := mkPrediction {
  trend : Trend;
  confidence : Z;
  reasoning : string;
  predictedUsageNextHour : Z
}.

(** What [ai.models.generateContent] and the decoding of its text come
    to: the call throws, the response has no text, the text is not JSON,
    or the decoded answer. *)
Inductive Generated :=
| CallThrows
| NoText
| NotJson
| Answer (p : PredictionResult).

(** The samples of the current day of the week taken within an hour of
    the current hour. *)
Definition sameTimePoints (tzOffset : Z -> Z) (now : Z)
    (history : list DataPoint) : list DataPoint :=
  let currentHour := Z.of_nat (Js.getHours tzOffset now) in
  let currentDay := Js.getDay tzOffset now in
  List.filter
    (fun d =>
       Nat.eqb (Js.getDay tzOffset (timestamp d)) currentDay
       && (Z.abs (Z.of_nat (Js.getHours tzOffset (timestamp d)) - currentHour)
           <=? 1))%bool
    history.

(** [avgVisitors]; [None] stands for the text [Unknown]. *)
Definition avgVisitors (tzOffset : Z -> Z) (now : Z)
    (history : list DataPoint) : option Z :=
  let points := sameTimePoints tzOffset now history in
  if (0 <? length points)%nat
  then Some (Js.round_div
               (foldl (fun acc curr => acc + visitors curr) 0 points)
               (Z.of_nat (length points)))
  else None.

(** [effectiveRecentData]: the samples of the last four hours, or the
    last five of the history when there is none; [now] is [Date.now()]. *)
Definition effectiveRecentData (now : Z) (history : list DataPoint)
    : list DataPoint :=
  let oneHour := 3600 * 1000 in
  let recentThreshold := now - 4 * oneHour in
  let recentData :=
    List.filter (fun d => recentThreshold <? timestamp d) history in
  if (0 <? length recentData)%nat then recentData
  else Js.slice_last 5 history.

Definition currentVisitors (now : Z) (history : list DataPoint) : Z :=
  from_option visitors 0 (last (effectiveRecentData now history)).

(** [getUtilizationPrediction], the prompt left aside: it goes to the
    service and nowhere else.  [apiKey] is [process.env.API_KEY]
    (absent or empty counts as missing), [now] is [Date.now()]. *)
Definition getUtilizationPrediction (apiKey : option string) (now : Z)
    (history : list DataPoint) (g : Generated) : Result PredictionResult :=
  match apiKey with
  | None => Throws
  | Some key =>
      if String.eqb key "" then Throws
      else
        match g with
        | Answer p => Returns p
        | _ =>
            Returns {| trend := Stable;
                       confidence := 0;
                       reasoning := "AI prediction unavailable.";
                       predictedUsageNextHour := currentVisitors now history |}
        end
  end.

End GeminiService.

(** ** components/AddGymModal: the form that adds a gym *)
Module AddGymModal.

(** The text handed to [new URL]: a link that does not start with
    [http] is completed with a placeholder host, keeping what follows
    its first question mark, or all of it when it has none. *)
Definition urlToParse (url : string) : string :=
  let urlToParse := Js.trim url in
  if negb (Js.startsWith "http" urlToParse)
  then
    match Js.indexOf "?" urlToParse with
    | Some i => "http://dummy.com" ++ Js.substringFrom i urlToParse
    | None => "http://dummy.com?" ++ urlToParse
    end
  else urlToParse.

Section Runtime.
(** [new URLSearchParams(new URL(u).search).get]: the lookup of a query
    parameter of the link [u], or [None] when [new URL(u)] throws. *)
Variable searchParams : string -> option (string -> option string).

(** [handleSubmit]: the configuration passed to [onAdd], or [None] when
    the error message is shown instead; [now] is [Date.now()]. *)
Definition handleSubmit (name url : string) (now : Z) : option GymConfig :=
  match searchParams (urlToParse url) with
  | None => None
  | Some get =>
      match get "park_id", get "location_id", get "location_name" with
      | Some parkId, Some locationId, Some locationName =>
          if (String.eqb parkId "" || String.eqb locationId ""
              || String.eqb locationName "")%bool
          then None
          else Some {| id := Js.toString now;
                       name := if String.eqb name "" then locationName
                               else name;
                       parkId := parkId;
                       locationId := locationId;
                       locationName := locationName |}
      | _, _, _ => None
      end
  end.
End Runtime.

End AddGymModal.
(** ** Vocabulary of the properties *)

(** Sorted ascending by timestamp. *)
Fixpoint ascending (h : list DataPoint) : bool :=
  match h with
  | [] => true
  | a :: t =>
      match t with
      | [] => true
      | b :: _ => (timestamp a <=? timestamp b) && ascending t
      end
  end.

(** A history within the retention cap of the updater and in order. *)
Definition retained (h : list DataPoint) : Prop :=
  Z.of_nat (length h) <= 5000 /\ ascending h = true.

(** The two clock reads of one iteration of the updater lie at most a
    minute apart. *)
Definition clock_steady (w : Updater.Sampling) : Prop :=
  Updater.t_check w - Updater.t_sample w <= 60000.

(** The point one iteration of the updater offers to the history of
    facility [k]: none if the gym is another one or the fetch failed. *)
Definition offered (k : string) (s : Updater.Gym * Updater.Sampling)
    : list DataPoint :=
  if decide (Updater.id (fst s) = k) then
    match Updater.fetchVisitors (Updater.reply (snd s)) with
    | Some v =>
        [ {| timestamp := Updater.t_sample (snd s);
             visitors := v;
             maxCapacity := 300 |} ]
    | None => []
    end
  else [].

(** The document an origin answered with, if it did: the request went
    through, the response was [ok] and its body decoded. *)
Definition answer {A} (f : GymService.Fetched A) : option A :=
  match f with
  | GymService.Json a => Some a
  | _ => None
  end.

(** The origin a tag stands for; [local] covers the cache and the seed. *)
Definition tagged (o : GymService.Origin) : GymService.Source :=
  match o with
  | GymService.Primary => GymService.server
  | GymService.Snapshot => GymService.cloud
  | GymService.Cache => GymService.local
  | GymService.Seed => GymService.local
  end.

(** The state found in local storage, if one was stored and parses. *)
Definition cached {A} (s : GymService.Stored A) : option A :=
  match s with
  | GymService.Parsed a => Some a
  | _ => None
  end.

Definition startsWithDigit (s : string) : bool :=
  match s with
  | String c _ => Js.isDigit c
  | EmptyString => false
  end.

(** The text, after leading white space and one optional sign, starts
    with a decimal digit. *)
Definition hasLeadingInteger (s : string) : bool :=
  match Js.trimStart s with
  | String c r =>
      if (Ascii.eqb c "-" || Ascii.eqb c "+")%bool then startsWithDigit r
      else Js.isDigit c
  | EmptyString => false
  end.

Definition is_write (e : Event) : bool :=
  match e with
  | EvWrite _ => true
  | EvFetch _ => false
  end.

(** The batch's last effect is a write and it is its only write. *)
Definition save_is_last_step (tr : list Event) : bool :=
  match reverse tr with
  | EvWrite _ :: before => forallb (fun e => negb (is_write e)) before
  | _ => false
  end.


(** The sample is less than 24 hours old at [now]. *)
Definition younger_than_a_day (now : Z) (d : DataPoint) : bool :=
  now - timestamp d <? 86400000.

(** The sample was taken in the 24 hours that end at [now]. *)
Definition within_last_day (now : Z) (d : DataPoint) : bool :=
  (now - 86400000 <? timestamp d) && (timestamp d <=? now).

(** The samples that fall on day-of-week [i]. *)
Definition bucket (dayOf : Z -> nat) (i : nat) (data : list DataPoint)
    : list DataPoint :=
  List.filter (fun d => Nat.eqb (dayOf (timestamp d)) i) data.

(** The visitors of a list of samples, summed. *)
Definition total (l : list DataPoint) : Z :=
  foldr (fun d s => visitors d + s) 0 l.

(** The current pointer is the last entry of the history, or absent
    when the history is empty. *)
Definition consistent (g : GymData) : Prop :=
  current g = last (history g).

(** A gym the server accepts: its id and its url are not empty. *)
Definition tracked_ok (g : Server.Gym) : Prop :=
  id (Server.cfg g) <> "" /\ Server.url g <> "".

(** Every character of the text satisfies [p]. *)
Fixpoint all_chars (p : ascii -> bool) (s : string) : bool :=
  match s with
  | EmptyString => true
  | String c s' => p c && all_chars p s'
  end.

(** The samples of day-of-week [day] taken during hour [h]. *)
Definition hour_bucket (dayOf hourOf : Z -> nat) (day h : nat)
    (data : list DataPoint) : list DataPoint :=
  List.filter
    (fun d => Nat.eqb (dayOf (timestamp d)) day
              && Nat.eqb (hourOf (timestamp d)) h)%bool
    data.

(** The mean of the visitors of a list of samples as the charts show
    it: rounded to the nearest integer, 0 for no sample. *)
Definition shown_mean (b : list DataPoint) : Z :=
  if 0 <? Z.of_nat (length b)
  then Js.round_div (total b) (Z.of_nat (length b))
  else 0.

(** Samples can be stored under [k] in the document: it has a member
    of its own under that name, or the name is not one of those every
    object inherits. *)
Definition usable (db : DB) (k : string) : Prop :=
  is_Some (db !! k) \/ Js.objectPrototype k = None.

(** The integer is held exactly by a JavaScript number. *)
Definition exact_number (z : Z) : Prop := Z.abs z <= 2 ^ 53.

(** Closes the propositional goals left by a case analysis. *)
Ltac settle :=
  repeat split; intros;
  repeat match goal with
         | H : _ /\ _ |- _ => destruct H
         | H : exists _, _ |- _ => destruct H
         end;
  try discriminate; try reflexivity; eauto.

(** ** Lists: [slice(-n)] and order *)

Lemma slice_last_length {A} (n : Z) (l : list A) :
  0 <= n -> Z.of_nat (length (Js.slice_last n l)) <= n.
Proof. intros Hn. unfold Js.slice_last. rewrite length_drop. lia. Qed.

Lemma slice_last_all {A} (n : Z) (l : list A) :
  Z.of_nat (length l) <= n -> Js.slice_last n l = l.
Proof.
  intros Hle. unfold Js.slice_last.
  replace (length l - Z.to_nat n)%nat with 0%nat by lia. reflexivity.
Qed.

Lemma slice_last_absorb {A} (n : Z) (l extra : list A) :
  Js.slice_last n (Js.slice_last n l ++ extra) = Js.slice_last n (l ++ extra).
Proof.
  unfold Js.slice_last.
  rewrite length_app, length_drop, length_app.
  set (a := (length l - Z.to_nat n)%nat).
  assert (Ha : (a <= length l)%nat) by (subst a; lia).
  replace (drop a l ++ extra) with (drop a (l ++ extra))
    by (rewrite drop_app_le by exact Ha; reflexivity).
  rewrite drop_drop. f_equal. subst a. lia.
Qed.

Lemma ascending_tail (a : DataPoint) (t : list DataPoint) :
  ascending (a :: t) = true -> ascending t = true.
Proof.
  destruct t as [|b t]; [reflexivity|].
  simpl. intros H. apply andb_true_iff in H. tauto.
Qed.

Lemma ascending_drop (n : nat) (h : list DataPoint) :
  ascending h = true -> ascending (drop n h) = true.
Proof.
  revert h. induction n as [|n IH]; intros h Hh; [exact Hh|].
  destruct h as [|a t]; [reflexivity|].
  simpl. apply IH. eapply ascending_tail. exact Hh.
Qed.

Lemma ascending_snoc (h : list DataPoint) (p : DataPoint) :
  ascending h = true ->
  (forall l, last h = Some l -> timestamp l <= timestamp p) ->
  ascending (h ++ [p]) = true.
Proof.
  induction h as [|a t IH]; intros Hh Hlast; [reflexivity|].
  destruct t as [|b t].
  - simpl. rewrite andb_true_r. apply Z.leb_le. apply Hlast. reflexivity.
  - change (ascending (a :: b :: t ++ [p]) = true).
    simpl in Hh. apply andb_true_iff in Hh as [Hab Ht].
    cbn [ascending]. cbn [ascending] in IH.
    apply andb_true_iff. split; [exact Hab|].
    apply IH; [exact Ht|]. intros l Hl. apply Hlast. exact Hl.
Qed.

Lemma slice_last_ascending (n : Z) (h : list DataPoint) :
  ascending h = true -> ascending (Js.slice_last n h) = true.
Proof. apply ascending_drop. Qed.

(** ** The updater: one iteration *)

(** The history of facility [k] after one iteration: the old one, with
    at most the offered point appended at its end, cut to its last 5000
    entries; a point is appended only past the duplicate check. *)
Lemma update_gym_history (g : Updater.Gym) (w : Updater.Sampling) (db : DB)
    (k : string) :
  Z.of_nat (length (default [] (db !! k))) <= 5000 ->
  exists news,
    sublist news (offered k (g, w)) /\
    default [] (Updater.update_gym g w db !! k)
      = Js.slice_last 5000 (default [] (db !! k) ++ news) /\
    (forall p l, p ∈ news -> last (default [] (db !! k)) = Some l ->
                 60000 < Updater.t_check w - timestamp l).
Proof.
  intros Hlen. unfold Updater.update_gym, offered. cbn [fst snd].
  destruct (Updater.fetchVisitors (Updater.reply w)) as [v|].
  2:{ exists []. split; [apply sublist_nil_l|].
      split; [rewrite app_nil_r, slice_last_all by exact Hlen; reflexivity|].
      intros p l Hp. inversion Hp. }
  destruct (decide (Updater.id g = k)) as [Hk|Hne]; [subst k|].
  2:{ exists []. split; [apply sublist_nil_l|].
      rewrite lookup_insert_ne by exact Hne.
      split; [rewrite app_nil_r, slice_last_all by exact Hlen; reflexivity|].
      intros p l Hp. inversion Hp. }
  rewrite lookup_insert_eq. cbn [default from_option Datatypes.id].
  set (h := default [] (db !! Updater.id g)) in *.
  set (p := {| timestamp := Updater.t_sample w; visitors := v;
               maxCapacity := 300 |}).
  assert (Hcut : forall x : list DataPoint,
             (if 5000 <? Z.of_nat (length x) then Js.slice_last 5000 x else x)
             = Js.slice_last 5000 x).
  { intros x. destruct (5000 <? Z.of_nat (length x)) eqn:E; [reflexivity|].
    apply Z.ltb_ge in E. symmetry. apply slice_last_all. exact E. }
  rewrite Hcut.
  destruct (last h) as [l|] eqn:Hl.
  - destruct (60000 <? Updater.t_check w - timestamp l) eqn:E.
    + exists [p]. split; [reflexivity|]. split; [reflexivity|].
      intros q l' _ Hl'. injection Hl' as <-. apply Z.ltb_lt. exact E.
    + exists []. split; [apply sublist_nil_l|].
      split; [rewrite app_nil_r; reflexivity|].
      intros q l' Hq. inversion Hq.
  - exists [p]. split; [reflexivity|]. split; [reflexivity|].
    intros q l' _ Hl'. discriminate Hl'.
Qed.

(** One iteration keeps every history within the cap and in order, as
    long as its two clock reads lie at most a minute apart. *)
Lemma update_gym_retained (g : Updater.Gym) (w : Updater.Sampling) (db : DB) :
  map_Forall (fun _ h => retained h) db ->
  clock_steady w ->
  map_Forall (fun _ h => retained h) (Updater.update_gym g w db).
Proof.
  intros Hdb Hclock k h' Hk.
  assert (Hold : retained (default [] (db !! k))).
  { destruct (db !! k) as [h|] eqn:E; cbn [default from_option Datatypes.id].
    - exact (Hdb k h E).
    - split; [cbn; lia | reflexivity]. }
  destruct Hold as [Hlen Hasc].
  destruct (update_gym_history g w db k Hlen) as (news & Hsub & Heq & Hgap).
  rewrite Hk in Heq. cbn [default from_option Datatypes.id] in Heq. subst h'.
  split; [apply slice_last_length; lia|].
  apply slice_last_ascending.
  unfold offered in Hsub. cbn [fst snd] in Hsub.
  assert (Hcases : news = [] \/
            exists v, news = [ {| timestamp := Updater.t_sample w;
                                  visitors := v; maxCapacity := 300 |} ]).
  { destruct (decide (Updater.id g = k));
      [|left; apply sublist_nil_r; exact Hsub].
    destruct (Updater.fetchVisitors (Updater.reply w)) as [v|];
      [|left; apply sublist_nil_r; exact Hsub].
    destruct news as [|q news]; [left; reflexivity|].
    right. exists v.
    apply sublist_length in Hsub as Hl. cbn in Hl.
    destruct news; [|cbn in Hl; lia].
    apply sublist_cons_l in Hsub as (k1 & k2 & Hk12 & _).
    destruct k1 as [|x k1]; [|destruct k1; discriminate Hk12].
    cbn in Hk12. congruence. }
  destruct Hcases as [->|[v ->]]; [rewrite app_nil_r; exact Hasc|].
  apply ascending_snoc; [exact Hasc|].
  intros l Hl. cbn [timestamp].
  specialize (Hgap _ l ltac:(left) Hl).
  unfold clock_steady in Hclock. lia.
Qed.

(** [run] applies the iterations of its loop to the loaded document. *)
Lemma updater_loop_updates (gyms : list Updater.Gym) (i : nat)
    (world : nat -> Updater.Sampling) (db : DB) (tr : list Event) :
  (Updater.loop i gyms world db tr).1
  = Updater.updates (imap (fun j g => (g, world (i + j)%nat)) gyms) db.
Proof.
  revert i db tr. induction gyms as [|g gyms IH]; intros i db tr.
  - reflexivity.
  - cbn [Updater.loop imap]. rewrite IH. unfold Updater.updates.
    cbn [foldl fst snd]. rewrite Nat.add_0_r. f_equal.
    apply imap_ext. intros j x _. cbn. f_equal. f_equal. lia.
Qed.

Lemma updater_run_updates (gyms : list Updater.Gym) (f : BackingFile)
    (world : nat -> Updater.Sampling) :
  (Updater.run_with gyms f world).1
  = Updater.updates (imap (fun j g => (g, world j)) gyms) (Updater.load f).
Proof.
  unfold Updater.run_with.
  pose proof (updater_loop_updates gyms 0 world (Updater.load f) []) as H.
  destruct (Updater.loop 0 gyms world (Updater.load f) []) as [db tr].
  exact H.
Qed.

(** ** Deduplication (C1) *)

(** C1, as amended.  In the static updater, when the fetch succeeded,
    the facility has a last stored sample, and the clock read in the
    duplicate check is at most 60,000 ms past that sample's timestamp,
    the incoming sample is discarded: the facility's history becomes
    its own last 5000 entries and nothing is appended.  For a history
    of at most 5000 entries the whole document is unchanged, and so is
    the view the frontend derives from it (history, current pointer,
    lastUpdated). *)
Theorem updater_dedup_is_noop (g : Updater.Gym) (w : Updater.Sampling)
    (db : DB) (h : list DataPoint) (l : DataPoint) (v : Z) :
  Updater.fetchVisitors (Updater.reply w) = Some v ->
  db !! Updater.id g = Some h ->
  last h = Some l ->
  Updater.t_check w - timestamp l <= 60000 ->
  Updater.update_gym g w db = <[Updater.id g := Js.slice_last 5000 h]> db /\
  (Z.of_nat (length h) <= 5000 ->
   Updater.update_gym g w db = db /\
   GymService.cloudData (Updater.update_gym g w db) = GymService.cloudData db).
Proof.
  intros Hv Hh Hl Hgap.
  assert (Heq : Updater.update_gym g w db
                = <[Updater.id g := Js.slice_last 5000 h]> db).
  { unfold Updater.update_gym. rewrite Hv, Hh.
    cbn [default from_option Datatypes.id]. rewrite Hl.
    replace (60000 <? Updater.t_check w - timestamp l) with false
      by (symmetry; apply Z.ltb_ge; exact Hgap).
    destruct (5000 <? Z.of_nat (length h)) eqn:E; [reflexivity|].
    apply Z.ltb_ge in E. rewrite slice_last_all by exact E. reflexivity. }
  split; [exact Heq|].
  intros Hlen.
  assert (Hid : Updater.update_gym g w db = db).
  { rewrite Heq, slice_last_all by exact Hlen. apply insert_id. exact Hh. }
  split; [exact Hid|]. rewrite Hid. reflexivity.
Qed.

Lemma updater_dedup_is_noop_witness :
  let g := {| Updater.id := "glattpark"; Updater.url := "" |} in
  let w := {| Updater.reply := Reply true "76";
              Updater.t_sample := 30000; Updater.t_check := 30001 |} in
  let db : DB := {[ "glattpark" := [mkPoint 0 78 300] ]} in
  Updater.update_gym g w db = db.
Proof.
  intros g w db.
  apply (updater_dedup_is_noop g w db [mkPoint 0 78 300] (mkPoint 0 78 300) 76);
    [reflexivity | reflexivity | reflexivity | cbn; lia | cbn; lia].
Defined.

(** C1 as stated fails on the server: [fetchGymData] appends a sample
    taken 30 s after the last stored one. *)
Lemma server_appends_within_window :
  let h := [mkPoint 0 78 300] in
  let db : DB := {[ "glattpark" := h ]} in
  let w := {| Server.reply := Reply true "76";
              Server.now := 30000; Server.save_ok := true |} in
  last h = Some (mkPoint 0 78 300) /\
  Server.now w - 0 < 60000 /\
  (Server.fetchGymData Server.glattpark w db).1.1 !! "glattpark"
    = Some [mkPoint 0 78 300; mkPoint 30000 76 300].
Proof. repeat split. Qed.

(** The embedded app appends every fetched sample as well. *)
Lemma app_appends_within_window :
  let gym := {| config := Server.cfg Server.glattpark;
                current := Some (mkPoint 0 78 300);
                history := [mkPoint 0 78 300];
                lastUpdated := 0 |} in
  let w := {| App.reply := Reply true "76";
              App.t_sample := 30000; App.t_done := 30000 |} in
  history (App.refreshGym gym w) = [mkPoint 0 78 300; mkPoint 30000 76 300].
Proof. reflexivity. Qed.

(** In the updater the check reads the clock anew: a sample stamped
    within the window is still appended when the second read falls
    outside it. *)
Lemma updater_check_reads_clock_again :
  let g := {| Updater.id := "glattpark"; Updater.url := "" |} in
  let w := {| Updater.reply := Reply true "76";
              Updater.t_sample := 59999; Updater.t_check := 60001 |} in
  let db : DB := {[ "glattpark" := [mkPoint 0 78 300] ]} in
  Updater.update_gym g w db !! "glattpark"
    = Some [mkPoint 0 78 300; mkPoint 59999 76 300].
Proof. reflexivity. Qed.

(** A history already longer than the cap is cut even when the sample
    is discarded. *)
Example updater_cuts_when_it_skips :
  let g := {| Updater.id := "glattpark"; Updater.url := "" |} in
  let h := (fun i => mkPoint (Z.of_nat i * 1800000) 50 300)
             <$> seq 0 (Z.to_nat 5001) in
  let w := {| Updater.reply := Reply true "50";
              Updater.t_sample := 5000 * 1800000 + 1000;
              Updater.t_check := 5000 * 1800000 + 1000 |} in
  Updater.update_gym g w {[ "glattpark" := h ]} !! "glattpark"
  = Some (drop 1 h).
Proof. vm_compute. reflexivity. Qed.

(** ** Retention and order (C2) *)

(** C2, as amended.  In the static updater, starting from a document
    whose histories each hold at most 5000 entries sorted ascending by
    timestamp, after any sequence of loop iterations whose two clock
    reads lie at most 60,000 ms apart, every history holds at most 5000
    entries and is sorted ascending; and each history is the old one
    with offered samples appended at its end, in the order offered,
    cut to its last 5000 entries: only the oldest entries are dropped
    and none is reordered. *)
Theorem updater_retention_and_order
    (steps : list (Updater.Gym * Updater.Sampling)) (db : DB) :
  map_Forall (fun _ h => retained h) db ->
  Forall (fun s => clock_steady (snd s)) steps ->
  map_Forall (fun _ h => retained h) (Updater.updates steps db) /\
  forall k, exists news,
    sublist news (concat (map (offered k) steps)) /\
    default [] (Updater.updates steps db !! k)
      = Js.slice_last 5000 (default [] (db !! k) ++ news).
Proof.
  revert db. induction steps as [|[g w] steps IH]; intros db Hdb Hclock.
  - change (Updater.updates [] db) with db.
    split; [exact Hdb|]. intros k. exists []. split; [reflexivity|].
    rewrite app_nil_r. symmetry. apply slice_last_all.
    destruct (db !! k) as [h|] eqn:E; cbn [default from_option Datatypes.id].
    + exact (proj1 (Hdb k h E)).
    + cbn. lia.
  - apply Forall_cons in Hclock as [Hw Hsteps]. cbn [snd] in Hw.
    pose proof (update_gym_retained g w db Hdb Hw) as Hdb1.
    destruct (IH _ Hdb1 Hsteps) as [Hfinal Hhist].
    change (Updater.updates ((g, w) :: steps) db)
      with (Updater.updates steps (Updater.update_gym g w db)).
    split; [exact Hfinal|]. intros k.
    destruct (Hhist k) as (news & Hsub & Heq).
    assert (Hlen : Z.of_nat (length (default [] (db !! k))) <= 5000).
    { destruct (db !! k) as [h|] eqn:E; cbn [default from_option Datatypes.id].
      - exact (proj1 (Hdb k h E)).
      - cbn. lia. }
    destruct (update_gym_history g w db k Hlen) as (n0 & Hsub0 & Heq0 & _).
    exists (n0 ++ news). split.
    + cbn [map concat]. apply sublist_app; assumption.
    + rewrite Heq, Heq0, slice_last_absorb, app_assoc. reflexivity.
Qed.

Lemma updater_retention_and_order_witness :
  let g := {| Updater.id := "glattpark"; Updater.url := "" |} in
  let steps :=
    [ (g, {| Updater.reply := Reply true "76";
             Updater.t_sample := 30000; Updater.t_check := 30001 |});
      (g, {| Updater.reply := Reply true "90";
             Updater.t_sample := 70000; Updater.t_check := 70001 |}) ] in
  let db : DB := {[ "glattpark" := [mkPoint 0 78 300] ]} in
  map_Forall (fun _ h => retained h) (Updater.updates steps db).
Proof.
  intros g steps db.
  apply (updater_retention_and_order steps db).
  - intros k h Hk. apply lookup_singleton_Some in Hk as [_ <-].
    split; [cbn; lia | reflexivity].
  - repeat constructor; unfold clock_steady; cbn; lia.
Defined.

(** Without the bound on the two clock reads the order can break: the
    check passes on the second read, the point carries the first. *)
Example updater_order_needs_steady_clock :
  let g := {| Updater.id := "glattpark"; Updater.url := "" |} in
  let w := {| Updater.reply := Reply true "76";
              Updater.t_sample := 0; Updater.t_check := 100000 |} in
  Updater.update_gym g w {[ "glattpark" := [mkPoint 30000 78 300] ]}
    !! "glattpark"
  = Some [mkPoint 30000 78 300; mkPoint 0 76 300].
Proof. reflexivity. Qed.

(** The end-to-end scenario of the specification, on the updater. *)
Example updater_scenario :
  let g := {| Updater.id := "glattpark"; Updater.url := "" |} in
  let steps :=
    [ (g, {| Updater.reply := Reply true "76";
             Updater.t_sample := 30000; Updater.t_check := 30001 |});
      (g, {| Updater.reply := Reply true "90";
             Updater.t_sample := 70000; Updater.t_check := 70001 |}) ] in
  Updater.updates steps {[ "glattpark" := [mkPoint 0 78 300] ]} !! "glattpark"
    = Some [mkPoint 0 78 300; mkPoint 70000 90 300].
Proof. reflexivity. Qed.

(** C2 as stated fails on the server: [fetchGymData] never truncates,
    so a history of 5000 entries grows to 5001. *)
Lemma server_history_exceeds_cap :
  let h := (fun i => mkPoint (Z.of_nat i * 1800000) 50 300)
             <$> seq 0 (Z.to_nat 5000) in
  let db : DB := {[ "glattpark" := h ]} in
  let w := {| Server.reply := Reply true "50";
              Server.now := 5000 * 1800000; Server.save_ok := true |} in
  retained h /\
  Z.of_nat (length (default [] ((Server.fetchGymData Server.glattpark w db).1.1
                                  !! "glattpark"))) = 5001.
Proof.
  intros h db w. split; [split|].
  - subst h. rewrite length_fmap, length_seq. lia.
  - vm_compute. reflexivity.
  - vm_compute. reflexivity.
Qed.

(** The embedded app keeps the last 5000 of the old history and the new
    sample. *)
Lemma app_history_capped (gym : GymData) (w : App.Sampling) (p : DataPoint) :
  GymService.fetchGymData (App.reply w) (App.t_sample w) = Some p ->
  history (App.refreshGym gym w) = Js.slice_last 5000 (history gym ++ [p]) /\
  Z.of_nat (length (history (App.refreshGym gym w))) <= 5000.
Proof.
  intros Hp. unfold App.refreshGym. rewrite Hp. cbn [history].
  split; [reflexivity | apply slice_last_length; lia].
Qed.

(** ** Source resolution (C3) *)

(** C3.  [loadGyms] consults the origins in the order primary,
    snapshot, cache, seed, and stops at the first that supplies a state:
    the origins consulted are an initial part of that list, and the tag
    is that of the last one consulted.  The tag is [server] exactly when
    the primary answered, [cloud] exactly when the primary did not and
    the snapshot did, and [local] exactly when neither did; and the data
    returned is, whole, that of the tagged origin alone: the primary's
    document, the view of the snapshot's document, or the cached state
    (the seed when nothing usable is cached). *)
Theorem resolver_tier_order (realHistory : list DataPoint)
    (primary : GymService.Fetched (list GymData))
    (snapshot : GymService.Fetched DB)
    (stored : GymService.Stored (list GymData)) (now : Z) :
  let r := GymService.loadGyms realHistory primary snapshot stored now in
  let data := r.1.1 in
  let tag := r.1.2 in
  let consulted := r.2 in
  consulted `prefix_of`
    [GymService.Primary; GymService.Snapshot; GymService.Cache;
     GymService.Seed] /\
  tagged <$> last consulted = Some tag /\
  (tag = GymService.server <-> is_Some (answer primary)) /\
  (tag = GymService.cloud <->
     answer primary = None /\ is_Some (answer snapshot)) /\
  (tag = GymService.local <->
     answer primary = None /\ answer snapshot = None) /\
  data = match tag with
         | GymService.server => default [] (answer primary)
         | GymService.cloud =>
             GymService.cloudData (default ∅ (answer snapshot))
         | GymService.local =>
             default (GymService.seedData realHistory now) (cached stored)
         end.
Proof.
  cbv zeta. unfold GymService.loadGyms, is_Some.
  destruct primary as [| | |serverData]; cbn [answer fst snd];
    try (destruct snapshot as [| | |historyDb]; cbn [answer fst snd];
         try (destruct stored as [| |parsed]; cbn [cached fst snd]));
    (split; [eexists; reflexivity | settle]).
Qed.

(** The claim at its most adverse: both lower tiers hold other data. *)
Example resolver_primary_wins (d1 d2 : list GymData)
    (h : DB) (rh : list DataPoint) (now : Z) :
  GymService.loadGyms rh (GymService.Json d1) (GymService.Json h)
                      (GymService.Parsed d2) now
  = ((d1, GymService.server), [GymService.Primary]).
Proof. reflexivity. Qed.

(** ** The sampler (C4) *)

Lemma digits_started (s : string) (a : Z) : is_Some (Js.digits s (Some a)).
Proof.
  revert a. induction s as [|c s IH]; intros a; cbn [Js.digits].
  - eexists; reflexivity.
  - destruct (Js.isDigit c); [apply IH | eexists; reflexivity].
Qed.

Lemma digits_NaN (s : string) :
  Js.digits s None = None <-> startsWithDigit s = false.
Proof.
  destruct s as [|c s]; cbn [Js.digits startsWithDigit]; [tauto|].
  destruct (Js.isDigit c).
  - split; [|discriminate]. intros H.
    destruct (digits_started s (10 * default 0 None + Js.digitValue c))
      as [x Hx].
    rewrite Hx in H. discriminate H.
  - tauto.
Qed.

(** [parseInt] yields NaN exactly when no digit follows the optional
    sign. *)
Lemma parseInt10_NaN (s : string) :
  Js.parseInt10 s = None <-> hasLeadingInteger s = false.
Proof.
  unfold Js.parseInt10, hasLeadingInteger.
  destruct (Js.trimStart s) as [|c r]; [tauto|].
  destruct (Ascii.eqb c "-") eqn:Em; cbn [orb].
  - rewrite <- digits_NaN. destruct (Js.digits r None); cbn; split;
      (discriminate || reflexivity || tauto).
  - destruct (Ascii.eqb c "+") eqn:Ep; [apply digits_NaN|].
    apply (digits_NaN (String c r)).
Qed.

(** C4, as amended.  The sampler returns a failure ([null]) exactly
    when the request fails, the response is not [ok], or the trimmed
    body does not start, after an optional sign, with a decimal digit;
    a negative value is not a failure.  On success the sample carries
    the clock read as timestamp, the value [parseInt] read as visitors
    (whatever its sign, and whatever follows the digits in the body) and
    the constant 300 as capacity.  The server's [fetchGymData] returns
    the same sample, or a failure as well in two more cases: when
    writing the backing file throws, and when the document has no
    member of its own under the gym's id while every object inherits
    one under that name ([constructor], [toString], ...), on which
    [push] throws.  The updater's [fetchVisitors] returns the same
    visitors. *)
Theorem sampler_failure_conditions (r : Response) (now : Z) :
  (GymService.fetchGymData r now = None <->
     r = NetworkError \/
     exists ok text, r = Reply ok text /\
       (ok = false \/ hasLeadingInteger (Js.trim text) = false)) /\
  (forall p, GymService.fetchGymData r now = Some p ->
     exists text, r = Reply true text /\
       Js.parseInt10 (Js.trim text) = Some (visitors p) /\
       timestamp p = now /\ maxCapacity p = 300) /\
  (forall (g : Server.Gym) (saved : bool) (db : DB),
     (Server.fetchGymData g
        {| Server.reply := r; Server.now := now; Server.save_ok := saved |}
        db).2
     = match Js.read db (id (Server.cfg g)) with
       | Js.Inherits _ => None
       | _ => if saved then GymService.fetchGymData r now else None
       end) /\
  Updater.fetchVisitors r = visitors <$> GymService.fetchGymData r now.
Proof.
  unfold GymService.fetchGymData, Server.fetchGymData, Updater.fetchVisitors.
  cbn [Server.reply Server.now Server.save_ok].
  destruct r as [|ok text].
  { split; [|split; [|split]].
    - split; [intros _; left; reflexivity | reflexivity].
    - intros p Hp. discriminate Hp.
    - intros g saved db.
      destruct (Js.read db (id (Server.cfg g))), saved; reflexivity.
    - reflexivity. }
  destruct ok; cbn [negb].
  2:{ split; [|split; [|split]].
      - split; [|reflexivity]. intros _. right. exists false, text.
        split; [reflexivity | left; reflexivity].
      - intros p Hp. discriminate Hp.
      - intros g saved db.
      destruct (Js.read db (id (Server.cfg g))), saved; reflexivity.
      - reflexivity. }
  pose proof (parseInt10_NaN (Js.trim text)) as HNaN.
  destruct (Js.parseInt10 (Js.trim text)) as [v|] eqn:Hparse.
  - split; [|split; [|split]].
    + split; [discriminate|].
      intros [H|(ok & text' & H & [Hok|Hnum])]; [discriminate H| |].
      * injection H as <- _. discriminate Hok.
      * injection H as _ <-. apply HNaN in Hnum. discriminate Hnum.
    + intros p Hp. injection Hp as <-. exists text. cbn. auto.
    + intros g saved db.
      destruct (Js.read db (id (Server.cfg g))), saved; reflexivity.
    + reflexivity.
  - split; [|split; [|split]].
    + split; [|reflexivity]. intros _. right. exists true, text.
      split; [reflexivity|]. right. apply HNaN. reflexivity.
    + intros p Hp. discriminate Hp.
    + intros g saved db.
      destruct (Js.read db (id (Server.cfg g))), saved; reflexivity.
    + reflexivity.
Qed.

(** C4 as stated fails: a negative value is returned as a sample. *)
Lemma sampler_accepts_negative :
  GymService.fetchGymData (Reply true "-5") 1000 = Some (mkPoint 1000 (-5) 300)
  /\ -5 < 0.
Proof. split; [reflexivity | lia]. Qed.

(** A body that is more than one integer is read up to its first
    character that is no digit. *)
Example sampler_reads_prefix :
  GymService.fetchGymData (Reply true " 12 visitors") 1000
  = Some (mkPoint 1000 12 300).
Proof. reflexivity. Qed.

(** ** Loading the backing document (C5) *)

(** C5 on the server: [initDB] does not recover.  With a backing file
    that exists and cannot be read or parsed, the exception leaves
    [initDB], which is called at top level. *)
Theorem server_initDB_throws (localEpoch : Z -> Z -> Z -> Z -> Z -> Z)
    (save_ok : bool) :
  Server.initDB localEpoch Malformed save_ok = Throws /\
  Server.initDB localEpoch Unreadable save_ok = Throws.
Proof. split; reflexivity. Qed.

(** C5 on the updater: [run] starts from the empty mapping and runs to
    its end, as it does with no file at all. *)
Lemma updater_load_recovers (gyms : list Updater.Gym)
    (world : nat -> Updater.Sampling) :
  Updater.load Malformed = ∅ /\
  Updater.load Unreadable = ∅ /\
  Updater.run_with gyms Malformed world = Updater.run_with gyms Missing world /\
  Updater.run_with gyms Unreadable world = Updater.run_with gyms Missing world.
Proof. repeat split. Qed.

(** ** Overlapping batches (C6) *)

Lemma server_exec_cons (s : Server.State) (i : Server.Input)
    (inputs : list Server.Input) :
  Server.exec s (i :: inputs) = Server.exec (Server.step s i) inputs.
Proof. reflexivity. Qed.

(** A batch that nothing interleaves with goes through the event loop
    as [runJob] run alone: same document, same effects, no task left. *)
Lemma server_batch_alone_from (rest : list Server.Gym) :
  forall (before : list Server.Gym) (g : Server.Gym)
         (world : nat -> Server.Sampling) (d : DB) (tr : list Event),
    let pc := length before in
    let s := {| Server.db := d;
                Server.gyms := before ++ g :: rest;
                Server.tasks := [Server.Batch pc];
                Server.trace := tr ++ [EvFetch (id (Server.cfg g))] |} in
    let s' := Server.exec s
                (imap (fun j _ => Server.Settles 0 (world (pc + j)%nat))
                      (g :: rest)) in
    (Server.db s', Server.trace s')
      = Server.runJob_from pc (g :: rest) world d tr /\
    Server.tasks s' = [] /\
    Server.gyms s' = before ++ g :: rest.
Proof.
  induction rest as [|g' rest IH]; intros before g world d tr; cbv zeta;
    rewrite imap_cons, server_exec_cons, Nat.add_0_r;
    unfold Server.step;
    cbn [Server.tasks Server.gyms Server.db Server.trace];
    change ([Server.Batch (length before)] !! 0%nat)
      with (Some (Server.Batch (length before))); cbv iota;
    rewrite list_lookup_middle by reflexivity;
    cbn [Server.runJob_from];
    destruct (Server.fetchGymData g (world (length before)) d)
      as [[d' writes] ret].
  - rewrite lookup_ge_None_2 by (rewrite length_app; cbn; lia).
    cbn [imap Server.exec foldl Server.db Server.trace Server.tasks
         Server.gyms].
    rewrite <- app_assoc. repeat split.
  - replace ((before ++ g :: g' :: rest) !! S (length before)) with (Some g').
    2:{ symmetry. rewrite (cons_middle g), app_assoc.
        apply list_lookup_middle. rewrite length_app. cbn. lia. }
    specialize (IH (before ++ [g]) g' world d'
                   (tr ++ EvFetch (id (Server.cfg g)) :: writes)).
    cbv zeta in IH. rewrite length_app in IH. cbn [length] in IH.
    replace (length before + 1)%nat with (S (length before)) in IH by lia.
    rewrite <- !app_assoc in IH. cbn [app] in IH.
    match goal with
    | |- context [Server.exec ?s1 ?l1] =>
        match type of IH with
        | context [Server.exec ?s2 ?l2] =>
            replace s1 with s2
              by (cbn [insert list_insert]; f_equal;
                  rewrite <- ?app_assoc; reflexivity);
            replace l1 with l2
              by (apply imap_ext; intros j x _; cbn; do 2 f_equal; lia)
        end
    end.
    exact IH.
Qed.

Lemma server_batch_alone (t : Server.Trigger) (gyms : list Server.Gym)
    (world : nat -> Server.Sampling) (d : DB) :
  let s := {| Server.db := d; Server.gyms := gyms;
              Server.tasks := []; Server.trace := [] |} in
  let s' := Server.exec (Server.step s (Server.Fire t))
              (imap (fun j _ => Server.Settles 0 (world j)) gyms) in
  (Server.db s', Server.trace s') = Server.runJob gyms world d /\
  Server.running s' = 0%nat.
Proof.
  cbv zeta. destruct gyms as [|g rest]; [split; reflexivity|].
  destruct (server_batch_alone_from rest [] g world d [])
    as (Hrun & Htasks & _).
  cbv zeta in Hrun, Htasks. cbn [length app Nat.add] in Hrun, Htasks.
  unfold Server.step, Server.start_batch.
  cbn [Server.gyms Server.db Server.tasks Server.trace app].
  unfold Server.runJob, Server.running. rewrite Hrun, Htasks.
  split; reflexivity.
Qed.

Lemma running_snoc_batch (ts : list Server.Task) (pc : nat) :
  length (List.filter Server.is_batch (ts ++ [Server.Batch pc]))
  = S (length (List.filter Server.is_batch ts)).
Proof. rewrite List.filter_app, length_app. cbn. lia. Qed.

(** C6, as amended.  In the embedded app a click on the refresh button
    and a staleness check that arrive while [isLoading] is set are
    dropped: the state is unchanged and nothing is queued.  On the
    server nothing guards [runJob]: every trigger starts one more batch
    at once, whatever is already in flight. *)
Theorem triggers_while_running (s : App.State) (clock : nat -> Z)
    (srv : Server.State) (t : Server.Trigger) :
  App.isLoading s = true ->
  App.step s App.ClickRefresh = s /\
  App.step s (App.StalenessCheck clock) = s /\
  Server.running (Server.step srv (Server.Fire t))
  = if decide (Server.gyms srv = []) then Server.running srv
    else S (Server.running srv).
Proof.
  intros Hloading. unfold App.step. rewrite Hloading. cbn [negb andb].
  split; [reflexivity|]. split; [reflexivity|].
  unfold Server.step, Server.start_batch, Server.running.
  destruct (Server.gyms srv) as [|g gs]; [reflexivity|].
  cbn [Server.tasks]. rewrite running_snoc_batch. reflexivity.
Qed.

Lemma triggers_while_running_witness :
  let s := App.start {| App.gyms := []; App.isLoading := false;
                        App.inflight := [] |} in
  let srv := Server.step (Server.booted Server.db0) (Server.Fire Server.Startup) in
  App.isLoading s = true /\
  App.step s App.ClickRefresh = s /\
  App.step s (App.StalenessCheck (fun _ => 0)) = s /\
  Server.running (Server.step srv (Server.Fire Server.RefreshRequest)) = 2%nat.
Proof.
  intros s srv. split; [reflexivity|].
  apply (triggers_while_running s (fun _ => 0) srv Server.RefreshRequest).
  reflexivity.
Defined.

(** C6 as stated fails on the server: a refresh request that arrives
    while the batch started at start-up awaits its fetch starts a second
    batch; two are then in flight. *)
Lemma server_batches_overlap :
  let s1 := Server.exec (Server.booted Server.db0) [Server.Fire Server.Startup] in
  let s2 := Server.step s1 (Server.Fire Server.RefreshRequest) in
  Server.running s1 = 1%nat /\ Server.running s2 = 2%nat.
Proof. split; reflexivity. Qed.

(** The two batches then both append: their samples, 5 ms apart, end up
    in the same history. *)
Example server_overlap_appends_twice :
  let w1 := {| Server.reply := Reply true "50"; Server.now := 1000;
               Server.save_ok := true |} in
  let w2 := {| Server.reply := Reply true "50"; Server.now := 1005;
               Server.save_ok := true |} in
  let s := Server.exec (Server.booted Server.db0)
             [Server.Fire Server.Startup; Server.Fire Server.RefreshRequest;
              Server.Settles 0 w1; Server.Settles 0 w2] in
  Server.db s !! "glattpark" = Some [mkPoint 1000 50 300; mkPoint 1005 50 300]
  /\ Server.running s = 0%nat.
Proof. split; reflexivity. Qed.

(** In the app the interval timer is not held back by [isLoading]. *)
Example app_timer_overlaps :
  let s := App.start {| App.gyms := []; App.isLoading := false;
                        App.inflight := [] |} in
  App.running s = 1%nat /\ App.running (App.step s App.IntervalFires) = 2%nat.
Proof. split; reflexivity. Qed.

(** ** Where the save happens (C7) *)

Lemma updater_loop_trace (gyms : list Updater.Gym) (i : nat)
    (world : nat -> Updater.Sampling) (db : DB) (tr : list Event) :
  (Updater.loop i gyms world db tr).2 = tr ++ (EvFetch ∘ Updater.id <$> gyms).
Proof.
  revert i db tr. induction gyms as [|g gyms IH]; intros i db tr.
  - cbn. rewrite app_nil_r. reflexivity.
  - cbn [Updater.loop]. rewrite IH, <- app_assoc. reflexivity.
Qed.

Lemma save_is_last_step_fetches (ids : list string) (doc : DB) :
  save_is_last_step ((EvFetch <$> ids) ++ [EvWrite doc]) = true.
Proof.
  unfold save_is_last_step. rewrite reverse_app. cbn.
  apply forallb_forall. intros e He.
  apply list_elem_of_In, elem_of_reverse, list_elem_of_fmap in He
    as (f & -> & _).
  reflexivity.
Qed.

(** C7, as amended.  In the static updater the save is one write of the
    whole final document, executed after the fetches of all facilities:
    the effects of [run] are the fetches, in order, then that write.  On
    the server the save is part of [fetchGymData]: each facility whose
    sample was taken is followed at once by a write of the whole
    document as it then stands. *)
Theorem updater_saves_last (gyms : list Updater.Gym) (f : BackingFile)
    (world : nat -> Updater.Sampling) :
  let r := Updater.run_with gyms f world in
  r.2 = (EvFetch ∘ Updater.id <$> gyms) ++ [EvWrite r.1] /\
  save_is_last_step r.2 = true /\
  forall (g : Server.Gym) (w : Server.Sampling) (db : DB),
    let out := Server.fetchGymData g w db in
    out.1.2 = match out.2 with
              | Some _ => [EvWrite out.1.1]
              | None => []
              end.
Proof.
  cbv zeta. unfold Updater.run_with.
  pose proof (updater_loop_trace gyms 0 world (Updater.load f) []) as Htr.
  destruct (Updater.loop 0 gyms world (Updater.load f) []) as [db tr].
  cbn [fst snd] in *. subst tr. cbn [app].
  split; [reflexivity|]. split.
  - rewrite list_fmap_compose. apply save_is_last_step_fetches.
  - intros g w db0. unfold Server.fetchGymData.
    destruct (Server.reply w) as [|ok text]; [reflexivity|].
    destruct ok; [|reflexivity]. cbn [negb].
    destruct (Js.parseInt10 (Js.trim text)); [|reflexivity].
    destruct (Js.read db0 (id (Server.cfg g)));
      [destruct (Server.save_ok w) | | destruct (Server.save_ok w)];
      reflexivity.
Qed.

(** C7 as stated fails on the server: with two gyms tracked, the
    document is written between the two fetches. *)
Lemma server_saves_between_fetches :
  let second :=
    {| Server.cfg := {| id := "oerlikon"; name := "FP Oerlikon";
                        parkId := "1"; locationId := "2";
                        locationName := "FP_Oerlikon" |};
       Server.url := "u" |} in
  let world := fun _ : nat =>
    {| Server.reply := Reply true "50"; Server.now := 1000;
       Server.save_ok := true |} in
  let tr := (Server.runJob [Server.glattpark; second] world Server.db0).2 in
  save_is_last_step tr = false /\
  exists d1 d2,
    tr = [EvFetch "glattpark"; EvWrite d1; EvFetch "oerlikon"; EvWrite d2].
Proof. split; [reflexivity|]. eexists _, _. reflexivity. Qed.

(** ** Failures within a batch (C8) *)

Lemma server_failure_untouched (g : Server.Gym) (w : Server.Sampling) (db : DB) :
  GymService.fetchGymData (Server.reply w) (Server.now w) = None ->
  Server.fetchGymData g w db = (db, [], None).
Proof.
  unfold GymService.fetchGymData, Server.fetchGymData.
  destruct (Server.reply w) as [|ok text]; [reflexivity|].
  destruct ok; [|reflexivity]. cbn [negb].
  destruct (Js.parseInt10 (Js.trim text)); [discriminate|reflexivity].
Qed.






(** ** The recent window (C9) *)

Lemma filter_sublist {A} (f : A -> bool) (l : list A) :
  sublist (List.filter f l) l.
Proof.
  induction l as [|x l IH]; cbn; [constructor|].
  destruct (f x); [apply sublist_skip | apply sublist_cons]; exact IH.
Qed.

Lemma filter_none {A} (f : A -> bool) (l : list A) :
  Forall (fun x => f x = false) l -> List.filter f l = [].
Proof.
  induction 1 as [|x l Hx _ IH]; cbn; [reflexivity|].
  rewrite Hx. exact IH.
Qed.

Lemma filter_agree {A} (f g : A -> bool) (l : list A) :
  Forall (fun x => f x = g x) l -> List.filter f l = List.filter g l.
Proof.
  induction 1 as [|x l Hx _ IH]; cbn; [reflexivity|].
  rewrite Hx, IH. reflexivity.
Qed.

(** What [RecentActivityChart] charts.  The samples kept are those
    stamped later than 24 hours (86,400,000 ms) before the time of the
    call, in the order of the history; when there is none, the last 20
    entries of the history, in order, however old.  The filter has no
    upper bound: where no sample is stamped later than the time of the
    call, the samples kept are those taken in the 24 hours before it.
    For a history all of which is 24 hours old or older, with at least
    20 entries, the result is its last 20 entries.  The chart rows carry
    the timestamps and visitors of these samples, one row per sample. *)
Lemma recent_window (formatTime formatDate : Z -> string) (now : Z)
    (data : list DataPoint) :
  let qualifying := List.filter (younger_than_a_day now) data in
  Charts.recent now data
    = (if decide (qualifying = []) then Js.slice_last 20 data else qualifying)
  /\ sublist (Charts.recent now data) data
  /\ (Forall (fun d => timestamp d <= now) data ->
      qualifying = List.filter (within_last_day now) data)
  /\ (Forall (fun d => timestamp d <= now - 86400000) data ->
      (20 <= length data)%nat ->
      Charts.recent now data = drop (length data - 20) data /\
      length (Charts.recent now data) = 20%nat)
  /\ Charts.point_timestamp <$> Charts.RecentActivityChart formatTime formatDate now data
     = timestamp <$> Charts.recent now data
  /\ Charts.point_visitors <$> Charts.RecentActivityChart formatTime formatDate now data
     = visitors <$> Charts.recent now data.
Proof.
  cbv zeta.
  assert (Hsame : List.filter (fun d => now - Charts.oneDay <? timestamp d) data
                  = List.filter (younger_than_a_day now) data).
  { apply filter_agree, Forall_forall. intros d _. unfold younger_than_a_day.
    change Charts.oneDay with 86400000.
    destruct (Z.ltb_spec (now - 86400000) (timestamp d));
      destruct (Z.ltb_spec (now - timestamp d) 86400000); (reflexivity || lia). }
  assert (Hrecent : Charts.recent now data
            = if decide (List.filter (younger_than_a_day now) data = [])
              then Js.slice_last 20 data
              else List.filter (younger_than_a_day now) data).
  { unfold Charts.recent. rewrite Hsame.
    destruct (List.filter (younger_than_a_day now) data) as [|q qs] eqn:Hq.
    - destruct data as [|d data]; [reflexivity|]. reflexivity.
    - reflexivity. }
  split; [exact Hrecent|]. split; [|split; [|split; [|split]]].
  - rewrite Hrecent. case_decide.
    + apply sublist_drop.
    + apply filter_sublist.
  - intros Hpast. apply filter_agree. eapply Forall_impl; [exact Hpast|].
    intros d Hd. cbn beta in Hd. unfold younger_than_a_day, within_last_day.
    destruct (Z.ltb_spec (now - timestamp d) 86400000);
      destruct (Z.ltb_spec (now - 86400000) (timestamp d));
      destruct (Z.leb_spec (timestamp d) now); (reflexivity || lia).
  - intros Hold Hlen.
    assert (Hnone : List.filter (younger_than_a_day now) data = []).
    { apply filter_none. eapply Forall_impl; [exact Hold|].
      intros d Hd. cbn beta in Hd. unfold younger_than_a_day.
      apply Z.ltb_ge. lia. }
    rewrite Hrecent, Hnone, decide_True by reflexivity.
    unfold Js.slice_last.
    split; [reflexivity|]. rewrite length_drop. lia.
  - unfold Charts.RecentActivityChart. rewrite <- list_fmap_compose.
    reflexivity.
  - unfold Charts.RecentActivityChart. rewrite <- list_fmap_compose.
    reflexivity.
Qed.

(** The fallback on 21 samples taken an hour apart, two days before the
    call: the oldest is left out, the other 20 stay in order. *)
Lemma recent_window_witness :
  let data := (fun i => mkPoint (Z.of_nat i * 3600000) 50 300) <$> seq 0 21 in
  Charts.recent (3 * 86400000) data = drop 1 data /\
  length (Charts.recent (3 * 86400000) data) = 20%nat.
Proof.
  intros data.
  destruct (recent_window (fun _ => EmptyString) (fun _ => EmptyString)
              (3 * 86400000) data) as (_ & _ & _ & Hfallback & _).
  apply Hfallback.
  - subst data. apply Forall_fmap, Forall_forall. intros i Hi.
    apply elem_of_seq in Hi. unfold compose. cbn [timestamp]. lia.
  - subst data. rewrite length_fmap, length_seq. lia.
Defined.

(** C9 fails on the code where samples are stamped later than the clock
    of the call reads.  The time of the call is 1,750,000,000,000.
    - [ahead]: 25 samples taken half an hour apart, the first two days
      after the time of the call.  None lies within the last 24 hours,
      so the claim asks for the last 20 of them; the filter, which has
      no upper bound, keeps every one and all 25 are charted.
    - [mixed]: 24 samples three days old and older, then one stamped
      5 s after the time of the call.  Again none lies within the last
      24 hours; the one sample stamped ahead is charted, not the last
      20 entries.
    - [past]: on samples stamped no later than the time of the call the
      chart is as the claim has it: the sample exactly 24 hours old is
      left out, the one a millisecond younger is kept. *)
Theorem recent_window_counts_future :
  let now := 1750000000000 in
  let ahead :=
    (fun i => mkPoint (now + 2 * 86400000 + Z.of_nat i * 1800000) 50 300)
      <$> seq 0 25 in
  let mixed :=
    ((fun i => mkPoint (now - 4 * 86400000 + Z.of_nat i * 1800000) 50 300)
       <$> seq 0 24) ++ [mkPoint (now + 5000) 61 300] in
  let past :=
    [mkPoint (now - 86400000) 40 300; mkPoint (now - 86399999) 45 300;
     mkPoint now 50 300] in
  List.filter (within_last_day now) ahead = [] /\
  Charts.recent now ahead = ahead /\
  length (Js.slice_last 20 ahead) = 20%nat /\
  length (Charts.recent now ahead) = 25%nat /\
  List.filter (within_last_day now) mixed = [] /\
  Charts.recent now mixed = [mkPoint (now + 5000) 61 300] /\
  length (Js.slice_last 20 mixed) = 20%nat /\
  Charts.recent now past = List.filter (within_last_day now) past /\
  Charts.recent now past = drop 1 past.
Proof. vm_compute. repeat split. Qed.

(** ** The weekday average (C10) *)

(** After the [forEach], slot [i] of each accumulator holds what it held
    before plus the sum, and the number, of the samples of day [i]. *)
Lemma accumulate_from (dayOf : Z -> nat) (data : list DataPoint)
    (sums counts : list Z) (i : nat) :
  let acc :=
    foldl (fun acc d =>
             let dayIndex := dayOf (timestamp d) in
             (alter (fun s => s + visitors d) dayIndex (fst acc),
              alter (fun c => c + 1) dayIndex (snd acc)))
          (sums, counts) data in
  acc.1 !! i = (fun s => s + total (bucket dayOf i data)) <$> sums !! i /\
  acc.2 !! i
    = (fun c => c + Z.of_nat (length (bucket dayOf i data))) <$> counts !! i.
Proof.
  cbv zeta. revert sums counts.
  induction data as [|d data IH]; intros sums counts.
  - cbn. split.
    + destruct (sums !! i); cbn; [f_equal; lia | reflexivity].
    + destruct (counts !! i); cbn; [f_equal; lia | reflexivity].
  - cbn [foldl fst snd]. destruct (IH
      (alter (fun s => s + visitors d) (dayOf (timestamp d)) sums)
      (alter (fun c => c + 1) (dayOf (timestamp d)) counts)) as [Hs Hc].
    rewrite Hs, Hc. clear Hs Hc IH.
    unfold bucket. cbn [List.filter].
    destruct (Nat.eqb_spec (dayOf (timestamp d)) i) as [Heq|Hne].
    + rewrite Heq, !list_lookup_alter_eq.
      set (rest := List.filter (fun d0 => Nat.eqb (dayOf (timestamp d0)) i) data).
      change (total (d :: rest)) with (visitors d + total rest).
      rewrite length_cons, Nat2Z.inj_succ.
      split.
      * destruct (sums !! i) as [s|]; [|reflexivity].
        cbn [fmap option_fmap option_map]. f_equal. lia.
      * destruct (counts !! i) as [c|]; [|reflexivity].
        cbn [fmap option_fmap option_map]. f_equal. lia.
    + rewrite !list_lookup_alter_ne by exact Hne. split; reflexivity.
Qed.

Lemma accumulate_lookup (dayOf : Z -> nat) (data : list DataPoint) (i : nat) :
  (i < 7)%nat ->
  (Charts.accumulate dayOf data).1 !! i = Some (total (bucket dayOf i data)) /\
  (Charts.accumulate dayOf data).2 !! i
    = Some (Z.of_nat (length (bucket dayOf i data))).
Proof.
  intros Hi. unfold Charts.accumulate.
  destruct (accumulate_from dayOf data (replicate 7 0) (replicate 7 0) i)
    as [Hs Hc].
  cbv zeta in Hs, Hc.
  rewrite Hs, Hc, lookup_replicate_2 by exact Hi. split; reflexivity.
Qed.

Lemma round_div_one (v : Z) : Js.round_div v 1 = v.
Proof.
  unfold Js.round_div. replace (2 * v + 1) with (v * 2 + 1) by lia.
  change (2 * 1) with 2. rewrite Z.div_add_l by lia.
  change (1 / 2) with 0. lia.
Qed.

(** [round_div] is the nearest integer to the quotient, a half going
    up. *)
Lemma round_div_nearest (t n : Z) :
  0 < n ->
  2 * t - n < 2 * n * Js.round_div t n <= 2 * t + n.
Proof.
  intros Hn. unfold Js.round_div.
  pose proof (Z.div_mod (2 * t + n) (2 * n) ltac:(lia)) as Hdm.
  pose proof (Z.mod_pos_bound (2 * t + n) (2 * n) ltac:(lia)) as Hb.
  nia.
Qed.

(** C10.  [DayAverageChart] reports seven entries, Sunday first; the
    entry of a day is 0 when no sample falls on that day, and otherwise
    the sum of the visitors of the samples of that day divided by their
    number, rounded to the nearest integer (a half going up).  With
    exactly one sample on a day the entry is that sample's visitors, and
    for an empty history every entry is 0. *)
Theorem weekday_average (tzOffset : Z -> Z) (data : list DataPoint)
    (i : nat) (dayName : string) :
  Charts.days !! i = Some dayName ->
  let b := bucket (Js.getDay tzOffset) i data in
  let n := Z.of_nat (length b) in
  length (Charts.DayAverageChart tzOffset data) = 7%nat /\
  exists a,
    Charts.DayAverageChart tzOffset data !! i
      = Some {| Charts.day := dayName; Charts.avg := a |} /\
    (b = [] -> a = 0) /\
    (b <> [] -> 2 * total b - n < 2 * n * a <= 2 * total b + n) /\
    (forall d, b = [d] -> a = visitors d) /\
    (data = [] -> a = 0).
Proof.
  intros Hday. cbv zeta.
  assert (Hi : (i < 7)%nat) by (apply lookup_lt_Some in Hday; exact Hday).
  unfold Charts.DayAverageChart.
  destruct (accumulate_lookup (Js.getDay tzOffset) data i Hi) as [Hs Hc].
  destruct (Charts.accumulate (Js.getDay tzOffset) data) as [sums counts].
  cbn [fst snd] in Hs, Hc.
  split; [rewrite length_imap; reflexivity|].
  rewrite list_lookup_imap, Hday. cbn [fmap option_fmap option_map].
  rewrite Hs, Hc. cbn [default from_option Datatypes.id].
  eexists. split; [reflexivity|].
  set (b := bucket (Js.getDay tzOffset) i data).
  assert (Hempty : b = [] ->
            (if 0 <? Z.of_nat (length b)
             then Js.round_div (total b) (Z.of_nat (length b)) else 0) = 0).
  { intros ->. reflexivity. }
  split; [exact Hempty|]. split; [|split].
  - intros Hne.
    assert (Hpos : 0 < Z.of_nat (length b)).
    { destruct b; [congruence | cbn [length]; lia]. }
    replace (0 <? Z.of_nat (length b)) with true
      by (symmetry; apply Z.ltb_lt; exact Hpos).
    apply round_div_nearest. exact Hpos.
  - intros d Hd. rewrite Hd. cbn [length total foldr].
    change (Z.of_nat 1) with 1. change (0 <? 1) with true. cbv iota.
    rewrite round_div_one. lia.
  - intros ->. apply Hempty. reflexivity.
Qed.

Lemma weekday_average_witness :
  let day := 86400000 in
  let data := [mkPoint (3 * day) 31 300; mkPoint (4 * day) 78 300] in
  (* 4 January 1970 was a Sunday, the 5th a Monday *)
  Charts.DayAverageChart (fun _ => 0) data !! 0%nat
    = Some {| Charts.day := "Sun"; Charts.avg := 31 |} /\
  Charts.DayAverageChart (fun _ => 0) data !! 1%nat
    = Some {| Charts.day := "Mon"; Charts.avg := 78 |}.
Proof.
  intros day data. split.
  - destruct (weekday_average (fun _ => 0) data 0 "Sun" eq_refl)
      as (_ & a & Ha & _ & _ & Hone & _).
    rewrite Ha, (Hone (mkPoint (3 * day) 31 300) eq_refl). reflexivity.
  - destruct (weekday_average (fun _ => 0) data 1 "Mon" eq_refl)
      as (_ & a & Ha & _ & _ & Hone & _).
    rewrite Ha, (Hone (mkPoint (4 * day) 78 300) eq_refl). reflexivity.
Defined.

(** One sample on each day of a week: the chart shows the seven values. *)
Example weekday_average_week :
  let day := 86400000 in
  let data := (fun i => mkPoint (Z.of_nat i * day) (10 * Z.of_nat i + 5) 300)
                <$> seq 3 7 in
  Charts.avg <$> Charts.DayAverageChart (fun _ => 0) data
  = [35; 45; 55; 65; 75; 85; 95].
Proof. reflexivity. Qed.

Example weekday_average_empty (tzOffset : Z -> Z) :
  Charts.avg <$> Charts.DayAverageChart tzOffset [] = [0; 0; 0; 0; 0; 0; 0].
Proof. reflexivity. Qed.

(** * Further properties of the code *)

(** ** The seed of the server ([initDB]) *)

Lemma insert_by_timestamp_perm (x : DataPoint) (l : list DataPoint) :
  Permutation (Server.insert_by_timestamp x l) (x :: l).
Proof.
  induction l as [|y l IH]; cbn; [reflexivity|].
  destruct (timestamp x <? timestamp y); [reflexivity|].
  rewrite IH. apply Permutation_swap.
Qed.

Lemma insert_by_timestamp_ascending (x : DataPoint) (l : list DataPoint) :
  ascending l = true -> ascending (Server.insert_by_timestamp x l) = true.
Proof.
  induction l as [|y l IH]; intros Hl; [reflexivity|].
  cbn [Server.insert_by_timestamp].
  destruct (Z.ltb_spec (timestamp x) (timestamp y)) as [Hlt|Hge].
  - change (ascending (x :: y :: l))
      with ((timestamp x <=? timestamp y) && ascending (y :: l)).
    rewrite Hl, andb_true_r. apply Z.leb_le. lia.
  - pose proof (ascending_tail _ _ Hl) as Htail. specialize (IH Htail).
    destruct l as [|z l].
    + cbn. rewrite andb_true_r. apply Z.leb_le. exact Hge.
    + cbn [Server.insert_by_timestamp] in *.
      change (ascending (y :: z :: l))
        with ((timestamp y <=? timestamp z) && ascending (z :: l)) in Hl.
      apply andb_true_iff in Hl as [Hyz _].
      destruct (timestamp x <? timestamp z).
      * change (ascending (y :: x :: z :: l))
          with ((timestamp y <=? timestamp x) && ascending (x :: z :: l)).
        rewrite IH, andb_true_r. apply Z.leb_le. exact Hge.
      * change (ascending (y :: z :: Server.insert_by_timestamp x l))
          with ((timestamp y <=? timestamp z)
                && ascending (z :: Server.insert_by_timestamp x l)).
        rewrite IH, Hyz. reflexivity.
Qed.

Lemma sort_by_timestamp_from (l acc : list DataPoint) :
  ascending acc = true ->
  let r := foldl (fun a x => Server.insert_by_timestamp x a) acc l in
  ascending r = true /\ Permutation r (l ++ acc).
Proof.
  revert acc. induction l as [|x l IH]; intros acc Hacc; cbv zeta.
  - split; [exact Hacc | reflexivity].
  - cbn [foldl].
    destruct (IH (Server.insert_by_timestamp x acc)
                 (insert_by_timestamp_ascending x acc Hacc)) as [Hasc Hperm].
    split; [exact Hasc|].
    rewrite Hperm, insert_by_timestamp_perm. cbn.
    symmetry. apply Permutation_middle.
Qed.

(** X1.  With no backing file, [initDB] builds under [glattpark] the 45
    seed rows, each with capacity 300, sorted ascending by timestamp
    whatever the runtime makes of the civil dates, and writes that
    document; when that write fails, the exception leaves [initDB], as
    it does for a file that cannot be read. *)
Theorem server_seed_sorted (localEpoch : Z -> Z -> Z -> Z -> Z -> Z) :
  exists h,
    Server.initDB localEpoch Missing true
      = Returns (<["glattpark" := h]> Server.db0,
                 [EvWrite (<["glattpark" := h]> Server.db0)]) /\
    Server.initDB localEpoch Missing false = Throws /\
    ascending h = true /\
    Permutation h
      (map (fun '(d, mo, y, hh, mi, v) =>
              mkPoint (localEpoch y (mo - 1) d hh mi) v 300)
           Server.RAW_SEED_DATA) /\
    length h = 45%nat.
Proof.
  exists (Server.seedHistory localEpoch).
  split; [reflexivity|]. split; [reflexivity|].
  destruct (sort_by_timestamp_from
              (map (fun '(d, mo, y, hh, mi, v) =>
                      mkPoint (Server.parseCustomDate localEpoch d mo y hh mi)
                              v 300)
                   Server.RAW_SEED_DATA) [] eq_refl) as [Hasc Hperm].
  cbv zeta in Hasc, Hperm. rewrite app_nil_r in Hperm.
  split; [exact Hasc|]. split; [exact Hperm|].
  apply Permutation_length in Hperm.
  etransitivity; [exact Hperm | reflexivity].
Qed.

(** ** The server never drops what it holds *)

Lemma read_insert_eq (db : DB) (k : string) (h : list DataPoint) :
  Js.read (<[k := h]> db) k = Js.Own h.
Proof. unfold Js.read. rewrite lookup_insert_eq. reflexivity. Qed.

Lemma read_insert_ne (db : DB) (k k' : string) (h : list DataPoint) :
  k <> k' -> Js.read (<[k := h]> db) k' = Js.read db k'.
Proof. intros Hne. unfold Js.read. rewrite lookup_insert_ne by exact Hne. reflexivity. Qed.

(** What [db[k]] reads, by whether samples can be stored under [k]. *)
Lemma read_cases (db : DB) (k : string) :
  (usable db k /\
   Js.read db k = match db !! k with
                  | Some h => Js.Own h
                  | None => Js.Undefined
                  end) \/
  (exists v, ~ usable db k /\ db !! k = None /\ Js.read db k = Js.Inherits v).
Proof.
  unfold Js.read, usable. destruct (db !! k) as [h|] eqn:Hk.
  - left. split; [left; eexists; reflexivity | reflexivity].
  - destruct (Js.objectPrototype k) as [v|] eqn:Hv.
    + right. exists v. split; [|split; reflexivity].
      intros [[h Hh]|Hn]; discriminate.
    + left. split; [right; reflexivity | reflexivity].
Qed.

Lemma usable_insert (db : DB) (k k' : string) (h : list DataPoint) :
  usable db k -> usable (<[k' := h]> db) k.
Proof.
  intros [Hown|Hname]; [left | right; exact Hname].
  destruct (decide (k' = k)) as [->|Hne].
  - rewrite lookup_insert_eq. eexists; reflexivity.
  - rewrite lookup_insert_ne by exact Hne. exact Hown.
Qed.

(** A call whose request and parse succeed, for an id under which
    samples can be stored. *)
Lemma server_fetch_sampled (g : Server.Gym) (w : Server.Sampling) (db : DB)
    (p : DataPoint) :
  GymService.fetchGymData (Server.reply w) (Server.now w) = Some p ->
  usable db (id (Server.cfg g)) ->
  Server.fetchGymData g w db
  = (<[id (Server.cfg g) := default [] (db !! id (Server.cfg g)) ++ [p]]> db,
     if Server.save_ok w
     then [EvWrite (<[id (Server.cfg g) :=
                      default [] (db !! id (Server.cfg g)) ++ [p]]> db)]
     else [],
     if Server.save_ok w then Some p else None).
Proof.
  unfold GymService.fetchGymData, Server.fetchGymData.
  destruct (Server.reply w) as [|ok text]; [discriminate|].
  destruct ok; [|discriminate]. cbn [negb].
  destruct (Js.parseInt10 (Js.trim text)) as [v|]; [|discriminate].
  intros Hp Huse. injection Hp as <-.
  destruct (read_cases db (id (Server.cfg g)))
    as [[_ ->]|(v' & Hno & _)]; [|contradiction].
  destruct (db !! id (Server.cfg g)); cbn [default from_option Datatypes.id];
    destruct (Server.save_ok w); reflexivity.
Qed.

(** A call for an id under which the document only has what every
    object inherits: nothing is stored, nothing is written, [null] is
    returned. *)
Lemma server_fetch_inherited (g : Server.Gym) (w : Server.Sampling) (db : DB) :
  ~ usable db (id (Server.cfg g)) ->
  Server.fetchGymData g w db = (db, [], None).
Proof.
  intros Hno. unfold Server.fetchGymData.
  destruct (Server.reply w) as [|ok text]; [reflexivity|].
  destruct ok; [|reflexivity]. cbn [negb].
  destruct (Js.parseInt10 (Js.trim text)) as [v|]; [|reflexivity].
  destruct (read_cases db (id (Server.cfg g)))
    as [[Huse _]|(v' & _ & _ & ->)]; [contradiction | reflexivity].
Qed.

Lemma server_fetch_extends (g : Server.Gym) (w : Server.Sampling) (db : DB)
    (k : string) :
  default [] (db !! k)
    `prefix_of` default [] ((Server.fetchGymData g w db).1.1 !! k).
Proof.
  destruct (GymService.fetchGymData (Server.reply w) (Server.now w))
    as [p|] eqn:Hp.
  2:{ rewrite (server_failure_untouched g w db Hp). reflexivity. }
  destruct (read_cases db (id (Server.cfg g)))
    as [[Huse _]|(v' & Hno & _)].
  2:{ rewrite (server_fetch_inherited g w db Hno). reflexivity. }
  rewrite (server_fetch_sampled g w db p Hp Huse). cbn [fst].
  destruct (decide (id (Server.cfg g) = k)) as [<-|Hne].
  - rewrite lookup_insert_eq. cbn [default from_option Datatypes.id].
    apply prefix_app_r. reflexivity.
  - rewrite lookup_insert_ne by exact Hne. reflexivity.
Qed.

Lemma server_start_batch_same (s : Server.State) :
  Server.gyms (Server.start_batch s) = Server.gyms s /\
  Server.db (Server.start_batch s) = Server.db s.
Proof.
  unfold Server.start_batch. destruct (Server.gyms s) eqn:E; split;
    (reflexivity || exact E || (symmetry; exact E)).
Qed.

Lemma server_step_extends (s : Server.State) (i : Server.Input) :
  Server.gyms s `prefix_of` Server.gyms (Server.step s i) /\
  forall k, default [] (Server.db s !! k)
              `prefix_of` default [] (Server.db (Server.step s i) !! k).
Proof.
  destruct i as [t|g|k w]; cbn [Server.step].
  - rewrite (proj1 (server_start_batch_same s)), (proj2 (server_start_batch_same s)).
    split; reflexivity.
  - destruct (String.eqb (id (Server.cfg g)) "" || String.eqb (Server.url g) "")%bool;
      cbn [Server.gyms Server.db]; split;
      (reflexivity || (intros; reflexivity) || (apply prefix_app_r; reflexivity)).
  - destruct (Server.tasks s !! k) as [[pc|g]|]; [| |split; reflexivity].
    + destruct (Server.gyms s !! pc) as [g|]; [|split; reflexivity].
      pose proof (server_fetch_extends g w (Server.db s)) as Hext.
      destruct (Server.fetchGymData g w (Server.db s)) as [[db' writes] ret].
      cbn [fst] in Hext.
      destruct (Server.gyms s !! S pc); cbn [Server.gyms Server.db];
        (split; [reflexivity | exact Hext]).
    + pose proof (server_fetch_extends g w (Server.db s)) as Hext.
      destruct (Server.fetchGymData g w (Server.db s)) as [[db' writes] ret].
      cbn [fst Server.gyms Server.db] in *.
      split; [reflexivity | exact Hext].
Qed.

(** X2.  Whatever requests, triggers and responses the server handles,
    it never removes or reorders anything it holds: the list of tracked
    gyms only grows at its end, and so does the history of every
    facility. *)
Theorem server_only_appends (s : Server.State) (inputs : list Server.Input) :
  Server.gyms s `prefix_of` Server.gyms (Server.exec s inputs) /\
  forall k, default [] (Server.db s !! k)
              `prefix_of` default [] (Server.db (Server.exec s inputs) !! k).
Proof.
  revert s. induction inputs as [|i inputs IH]; intros s.
  - split; [reflexivity | intros; reflexivity].
  - rewrite server_exec_cons.
    destruct (server_step_extends s i) as [Hg Hd].
    destruct (IH (Server.step s i)) as [Hg' Hd'].
    split; [etransitivity; eassumption|].
    intros k. etransitivity; [apply Hd | apply Hd'].
Qed.

(** X3.  The gyms the server tracks always have an id and a url: a
    request to add a gym without either is refused and changes
    nothing. *)
Theorem server_tracks_valid_gyms (s : Server.State)
    (inputs : list Server.Input) :
  Forall tracked_ok (Server.gyms s) ->
  Forall tracked_ok (Server.gyms (Server.exec s inputs)).
Proof.
  revert s. induction inputs as [|i inputs IH]; intros s Hs; [exact Hs|].
  rewrite server_exec_cons. apply IH.
  destruct i as [t|g|k w]; cbn [Server.step].
  - rewrite (proj1 (server_start_batch_same s)). exact Hs.
  - destruct (String.eqb_spec (id (Server.cfg g)) "") as [Hid|Hid];
      cbn [orb]; [exact Hs|].
    destruct (String.eqb_spec (Server.url g) "") as [Hurl|Hurl]; [exact Hs|].
    cbn [Server.gyms]. apply Forall_app. split; [exact Hs|].
    constructor; [split; assumption | constructor].
  - destruct (Server.tasks s !! k) as [[pc|g]|]; [| |exact Hs].
    + destruct (Server.gyms s !! pc) as [g|]; [|exact Hs].
      destruct (Server.fetchGymData g w (Server.db s)) as [[db' writes] ret].
      destruct (Server.gyms s !! S pc); exact Hs.
    + destruct (Server.fetchGymData g w (Server.db s)) as [[db' writes] ret].
      exact Hs.
Qed.

Lemma server_tracks_valid_gyms_witness :
  let bad := {| Server.cfg := {| id := ""; name := "x"; parkId := "1";
                                 locationId := "2"; locationName := "n" |};
                Server.url := "u" |} in
  Forall tracked_ok
    (Server.gyms (Server.exec (Server.booted Server.db0)
                    [Server.AddGym bad; Server.Fire Server.Timer])).
Proof.
  intros bad. apply server_tracks_valid_gyms.
  repeat constructor; discriminate.
Defined.

(** ** What the server reports and writes after a sample *)

(** X4.  Right after a sample was taken for a gym, [GET /api/gyms]
    reports it: every tracked gym with that id shows the sample as
    current, its timestamp as lastUpdated and the old history with the
    sample at its end; the entries of the other gyms are as before.
    This holds whether or not the write of the backing file succeeded.
    The one exception is an id under which the document has nothing of
    its own but inherits a member: no sample can be stored there, and
    the response is what it was. *)
Theorem server_api_shows_sample (gyms : list Server.Gym) (g : Server.Gym)
    (w : Server.Sampling) (db : DB) (p : DataPoint) (i : nat)
    (g' : Server.Gym) :
  GymService.fetchGymData (Server.reply w) (Server.now w) = Some p ->
  gyms !! i = Some g' ->
  Server.api_gyms gyms (Server.fetchGymData g w db).1.1 !! i
  = match Js.read db (id (Server.cfg g)) with
    | Js.Inherits _ => Server.api_gyms gyms db !! i
    | _ =>
        if decide (id (Server.cfg g') = id (Server.cfg g))
        then Some (Server.listed
                     {| config := Server.cfg g';
                        current := Some p;
                        history := default [] (db !! id (Server.cfg g)) ++ [p];
                        lastUpdated := timestamp p |})
        else Server.api_gyms gyms db !! i
    end.
Proof.
  intros Hp Hi.
  destruct (read_cases db (id (Server.cfg g)))
    as [[Huse Hread]|(v & Hno & _ & Hread)].
  2:{ rewrite Hread, (server_fetch_inherited g w db Hno). reflexivity. }
  rewrite (server_fetch_sampled g w db p Hp Huse). cbn [fst].
  assert (Hshown :
    Server.api_gyms gyms
      (<[id (Server.cfg g) := default [] (db !! id (Server.cfg g)) ++ [p]]> db)
      !! i
    = if decide (id (Server.cfg g') = id (Server.cfg g))
      then Some (Server.listed
                   {| config := Server.cfg g';
                      current := Some p;
                      history := default [] (db !! id (Server.cfg g)) ++ [p];
                      lastUpdated := timestamp p |})
      else Server.api_gyms gyms db !! i).
  { unfold Server.api_gyms. rewrite !list_lookup_fmap, Hi.
    cbn [fmap option_fmap option_map].
    case_decide as Hid.
    - rewrite Hid, read_insert_eq. unfold Server.listed.
      cbn [config history current lastUpdated].
      rewrite last_snoc. reflexivity.
    - rewrite read_insert_ne by congruence. reflexivity. }
  rewrite Hshown, Hread. destruct (db !! id (Server.cfg g)); reflexivity.
Qed.

Lemma server_api_shows_sample_witness :
  let w := {| Server.reply := Reply true "76";
              Server.now := 30000; Server.save_ok := false |} in
  let db : DB := {[ "glattpark" := [mkPoint 0 78 300] ]} in
  Server.api_gyms Server.gyms0
    (Server.fetchGymData Server.glattpark w db).1.1 !! 0%nat
  = Some (Server.listed
            {| config := Server.cfg Server.glattpark;
               current := Some (mkPoint 30000 76 300);
               history := [mkPoint 0 78 300; mkPoint 30000 76 300];
               lastUpdated := 30000 |}).
Proof.
  intros w db.
  exact (server_api_shows_sample Server.gyms0 Server.glattpark w db
           (mkPoint 30000 76 300) 0 Server.glattpark eq_refl eq_refl).
Defined.

(** A gym posted under the id [constructor] is accepted, yet no sample
    is ever stored for it: the response lists it without a history. *)
Example server_inherited_id :
  let g := {| Server.cfg := {| id := "constructor"; name := "c";
                               parkId := "1"; locationId := "2";
                               locationName := "n" |};
              Server.url := "u" |} in
  let w := {| Server.reply := Reply true "41"; Server.now := 5000;
              Server.save_ok := true |} in
  Server.fetchGymData g w Server.db0 = (Server.db0, [], None) /\
  Server.api_gyms [g] Server.db0
  = [ {| Server.entry_config := Server.cfg g;
         Server.entry_history := Server.Omitted;
         Server.entry_current := None;
         Server.entry_lastUpdated := 0 |} ].
Proof. split; reflexivity. Qed.

(** X5.  A sample whose write fails is not lost: for gyms under whose
    ids samples can be stored, [fetchGymData] returns [null] and writes
    nothing, yet the sample is in the document in memory, and the next
    call whose write succeeds writes a document that holds both
    samples. *)
Theorem server_unsaved_sample_kept (g1 g2 : Server.Gym)
    (w1 w2 : Server.Sampling) (db : DB) (p1 p2 : DataPoint) :
  usable db (id (Server.cfg g1)) ->
  usable db (id (Server.cfg g2)) ->
  GymService.fetchGymData (Server.reply w1) (Server.now w1) = Some p1 ->
  Server.save_ok w1 = false ->
  GymService.fetchGymData (Server.reply w2) (Server.now w2) = Some p2 ->
  Server.save_ok w2 = true ->
  let r1 := Server.fetchGymData g1 w1 db in
  let r2 := Server.fetchGymData g2 w2 r1.1.1 in
  r1.2 = None /\ r1.1.2 = [] /\
  p1 ∈ default [] (r1.1.1 !! id (Server.cfg g1)) /\
  r2.2 = Some p2 /\
  r2.1.2 = [EvWrite r2.1.1] /\
  p1 ∈ default [] (r2.1.1 !! id (Server.cfg g1)) /\
  p2 ∈ default [] (r2.1.1 !! id (Server.cfg g2)).
Proof.
  intros Hu1 Hu2 Hp1 Hs1 Hp2 Hs2. cbv zeta.
  pose proof (server_fetch_extends g2 w2 (Server.fetchGymData g1 w1 db).1.1
                (id (Server.cfg g1))) as Hext.
  rewrite (server_fetch_sampled g1 w1 db p1 Hp1 Hu1) in *. rewrite Hs1 in *.
  cbn [fst snd] in *.
  set (db1 := <[id (Server.cfg g1) :=
                default [] (db !! id (Server.cfg g1)) ++ [p1]]> db) in *.
  assert (Hin1 : p1 ∈ default [] (db1 !! id (Server.cfg g1))).
  { subst db1. rewrite lookup_insert_eq.
    cbn [default from_option Datatypes.id]. set_solver. }
  rewrite (server_fetch_sampled g2 w2 db1 p2 Hp2
             (usable_insert db _ _ _ Hu2)) in *.
  rewrite Hs2 in *.
  cbn [fst snd] in *.
  repeat split; try reflexivity; try exact Hin1.
  - destruct Hext as [more ->]. set_solver.
  - rewrite lookup_insert_eq. cbn [default from_option Datatypes.id].
    set_solver.
Qed.

Lemma server_unsaved_sample_kept_witness :
  let w1 := {| Server.reply := Reply true "76";
               Server.now := 30000; Server.save_ok := false |} in
  let w2 := {| Server.reply := Reply true "90";
               Server.now := 70000; Server.save_ok := true |} in
  let r1 := Server.fetchGymData Server.glattpark w1 Server.db0 in
  let r2 := Server.fetchGymData Server.glattpark w2 r1.1.1 in
  r1.2 = None /\
  mkPoint 30000 76 300 ∈ default [] (r2.1.1 !! "glattpark").
Proof.
  intros w1 w2 r1 r2.
  destruct (server_unsaved_sample_kept Server.glattpark Server.glattpark
              w1 w2 Server.db0 (mkPoint 30000 76 300) (mkPoint 70000 90 300)
              (or_intror eq_refl) (or_intror eq_refl)
              eq_refl eq_refl eq_refl eq_refl)
    as (Hnull & _ & _ & _ & _ & Hkept & _).
  split; [exact Hnull | exact Hkept].
Defined.

(** ** The current pointer in the app *)

Lemma last_slice_last {A} (n : Z) (l : list A) :
  0 < n -> last (Js.slice_last n l) = last l.
Proof.
  intros Hn. unfold Js.slice_last.
  destruct l as [|x l]; [reflexivity|].
  rewrite !last_lookup, lookup_drop, length_drop. f_equal.
  cbn [length]. lia.
Qed.

Lemma api_gyms_consistent (gyms : list Server.Gym) (db : DB)
    (d : list GymData) :
  Server.api_gyms gyms db = Server.listed <$> d ->
  Forall consistent d.
Proof.
  intros Hsent. apply Forall_lookup. intros i gd Hgd.
  apply (f_equal (fun l => l !! i)) in Hsent.
  unfold Server.api_gyms in Hsent.
  rewrite !list_lookup_fmap, Hgd in Hsent.
  destruct (gyms !! i) as [g|]; [|discriminate Hsent].
  cbn [fmap option_fmap option_map] in Hsent.
  injection Hsent as Hentry. unfold consistent. destruct gd as [c cur h lu].
  unfold Server.listed in Hentry. cbn [config history current lastUpdated] in *.
  destruct (Js.read db (id (Server.cfg g))) as [h'|[|]|];
    try discriminate Hentry; injection Hentry as _ Hh Hcur _;
    subst; reflexivity.
Qed.

Lemma cloudData_consistent (historyDb : DB) :
  Forall consistent (GymService.cloudData historyDb).
Proof. repeat constructor. Qed.

Lemma seedData_consistent (realHistory : list DataPoint) (now : Z) :
  Forall consistent (GymService.seedData realHistory now).
Proof. repeat constructor. Qed.

(** X6.  The state [loadGyms] hands to the app has, for every gym, the
    current pointer at the last entry of the history (absent for an
    empty history), provided the primary, when it answers, answers with
    what [GET /api/gyms] of the server builds, every history in it
    being an array as the type [GymData] has it, and the cached state,
    when there is one, has the property. *)
Theorem loaded_state_consistent (realHistory : list DataPoint)
    (sgyms : list Server.Gym) (sdb : DB)
    (primary : GymService.Fetched (list GymData))
    (snapshot : GymService.Fetched DB)
    (stored : GymService.Stored (list GymData)) (now : Z) :
  (exists d, primary = GymService.Json d /\
             Server.api_gyms sgyms sdb = Server.listed <$> d)
    \/ answer primary = None ->
  (forall d, cached stored = Some d -> Forall consistent d) ->
  Forall consistent
    (GymService.loadGyms realHistory primary snapshot stored now).1.1.
Proof.
  intros Hprimary Hcache. unfold GymService.loadGyms.
  destruct Hprimary as [(d & -> & Hsent)|Hnone].
  { exact (api_gyms_consistent sgyms sdb d Hsent). }
  destruct primary as [| | |d]; [| | |discriminate Hnone];
    (destruct snapshot as [| | |h]; cbn [fst];
     [| | |apply cloudData_consistent];
     (destruct stored as [| |d]; cbn [fst];
      [apply seedData_consistent | apply seedData_consistent
       | apply Hcache; reflexivity])).
Qed.

Lemma loaded_state_consistent_witness :
  let db : DB := {[ "glattpark" := [mkPoint 0 78 300] ]} in
  let sent := [ {| config := Server.cfg Server.glattpark;
                   current := Some (mkPoint 0 78 300);
                   history := [mkPoint 0 78 300];
                   lastUpdated := 0 |} ] in
  Server.api_gyms Server.gyms0 db = Server.listed <$> sent /\
  Forall consistent
    (GymService.loadGyms [] (GymService.Json sent)
       GymService.NotOk GymService.NoItem 0).1.1.
Proof.
  intros db sent. split; [reflexivity|].
  apply (loaded_state_consistent [] Server.gyms0 db).
  - left. exists sent. split; reflexivity.
  - intros d Hd. discriminate Hd.
Defined.

Lemma refreshGym_consistent (gym : GymData) (w : App.Sampling) :
  consistent gym -> consistent (App.refreshGym gym w).
Proof.
  intros Hgym. unfold App.refreshGym.
  destruct (GymService.fetchGymData (App.reply w) (App.t_sample w)) as [p|];
    [|exact Hgym].
  unfold consistent. cbn [current history].
  rewrite last_slice_last by lia. rewrite last_snoc. reflexivity.
Qed.

(** X7.  The app keeps the current pointer at the last entry of the
    history: a refresh of all gyms preserves the property, whichever
    fetches fail, and so does adding a gym, whether or not its first
    fetch yields a sample. *)
Theorem app_keeps_current_last (gyms : list GymData)
    (world : nat -> App.Sampling) (config' : GymConfig)
    (data : option DataPoint) (t_done : Z) :
  Forall consistent gyms ->
  Forall consistent (App.refreshAllGyms gyms world) /\
  Forall consistent
    (App.handleAddGym_fetched config' data t_done
       (App.handleAddGym_joined config' gyms)).
Proof.
  intros Hgyms. split.
  - unfold App.refreshAllGyms. apply Forall_lookup. intros i g Hi.
    rewrite list_lookup_imap in Hi.
    destruct (gyms !! i) as [g0|] eqn:Hg0; [|discriminate Hi].
    injection Hi as <-. apply refreshGym_consistent.
    rewrite Forall_lookup in Hgyms. exact (Hgyms i g0 Hg0).
  - assert (Hjoined : Forall consistent (App.handleAddGym_joined config' gyms)).
    { apply Forall_app. split; [exact Hgyms|]. repeat constructor. }
    unfold App.handleAddGym_fetched. destruct data as [d|]; [|exact Hjoined].
    apply Forall_fmap. eapply Forall_impl; [exact Hjoined|].
    intros g Hg. cbn.
    destruct (String.eqb (id (config g)) (id config')); [reflexivity|exact Hg].
Qed.

Lemma app_keeps_current_last_witness :
  let gym := {| config := Server.cfg Server.glattpark;
                current := Some (mkPoint 0 78 300);
                history := [mkPoint 0 78 300];
                lastUpdated := 0 |} in
  let world := fun _ : nat =>
    {| App.reply := Reply true "76";
       App.t_sample := 400000; App.t_done := 400001 |} in
  Forall consistent (App.refreshAllGyms [gym] world).
Proof.
  intros gym world.
  apply (app_keeps_current_last [gym] world (Server.cfg Server.glattpark)
           None 0).
  repeat constructor.
Defined.

(** ** Staleness *)

Lemma isStale_true (clock : nat -> Z) (gyms : list GymData) :
  App.isStale clock gyms = true <->
  exists i g, gyms !! i = Some g /\
    (current g = None \/ 5 * 60 * 1000 < clock i - lastUpdated g).
Proof.
  unfold App.isStale. rewrite existsb_exists. split.
  - intros (b & Hin & Hb). subst b.
    apply list_elem_of_In, list_elem_of_lookup in Hin as [i Hi].
    rewrite list_lookup_imap in Hi.
    destruct (gyms !! i) as [g|] eqn:Hg; [|discriminate Hi].
    exists i, g. split; [exact Hg|].
    cbn in Hi. destruct (current g); [|left; reflexivity].
    right. injection Hi as Hi. apply Z.ltb_lt. exact Hi.
  - intros (i & g & Hg & Hstale). exists true. split; [|reflexivity].
    apply list_elem_of_In, list_elem_of_lookup. exists i.
    rewrite list_lookup_imap, Hg. cbn.
    destruct Hstale as [->|Hold]; [reflexivity|].
    destruct (current g); [|reflexivity].
    f_equal. apply Z.ltb_lt. exact Hold.
Qed.

(** X8.  After a refresh in which every fetch yields a sample, no gym
    is stale as long as the clock read for each gym is at most five
    minutes past the end of that gym's refresh: the staleness check
    then starts nothing. *)
Theorem fresh_after_full_refresh (gyms : list GymData)
    (world : nat -> App.Sampling) (clock : nat -> Z) :
  (forall i, (i < length gyms)%nat ->
     is_Some (GymService.fetchGymData (App.reply (world i))
                                      (App.t_sample (world i)))) ->
  (forall i, (i < length gyms)%nat ->
     clock i - App.t_done (world i) <= 5 * 60 * 1000) ->
  App.isStale clock (App.refreshAllGyms gyms world) = false.
Proof.
  intros Hok Hclock. apply not_true_iff_false. intros Hstale.
  apply isStale_true in Hstale as (i & g & Hg & Hwhy).
  unfold App.refreshAllGyms in Hg. rewrite list_lookup_imap in Hg.
  destruct (gyms !! i) as [g0|] eqn:Hg0; [|discriminate Hg].
  apply lookup_lt_Some in Hg0 as Hi.
  injection Hg as <-. unfold App.refreshGym in Hwhy.
  destruct (Hok i Hi) as [p Hp]. rewrite Hp in Hwhy.
  cbn [current lastUpdated] in Hwhy.
  destruct Hwhy as [Hnone|Hold]; [discriminate Hnone|].
  specialize (Hclock i Hi). lia.
Qed.

Lemma fresh_after_full_refresh_witness :
  let gym := {| config := Server.cfg Server.glattpark;
                current := None; history := []; lastUpdated := 0 |} in
  let world := fun _ : nat =>
    {| App.reply := Reply true "76";
       App.t_sample := 400000; App.t_done := 400001 |} in
  App.isStale (fun _ => 500000) (App.refreshAllGyms [gym] world) = false.
Proof.
  intros gym world. apply fresh_after_full_refresh.
  - intros i _. eexists. reflexivity.
  - intros i _. cbn. lia.
Defined.

(** X9.  A gym that has no current sample and whose fetch fails keeps
    the state stale whatever the clock reads: once the batch has
    settled, the next staleness check starts a refresh again. *)
Theorem stale_after_failed_first_fetch (s : App.State) (k : nat)
    (captured : list GymData) (world : nat -> App.Sampling)
    (clock : nat -> Z) (i : nat) (gym : GymData) :
  App.inflight s !! k = Some captured ->
  captured !! i = Some gym ->
  current gym = None ->
  GymService.fetchGymData (App.reply (world i)) (App.t_sample (world i))
    = None ->
  let s' := App.step s (App.BatchSettles k world) in
  App.isStale clock (App.gyms s') = true /\
  App.step s' (App.StalenessCheck clock) = App.start s'.
Proof.
  intros Hk Hi Hcur Hfail. cbv zeta.
  assert (Hs' : App.step s (App.BatchSettles k world)
                = {| App.gyms := App.refreshAllGyms captured world;
                     App.isLoading := false;
                     App.inflight := delete k (App.inflight s) |})
    by (cbn [App.step]; rewrite Hk; reflexivity).
  rewrite Hs'. cbn [App.step App.gyms App.isLoading negb andb].
  assert (Hstale : App.isStale clock (App.refreshAllGyms captured world) = true).
  { apply isStale_true. exists i, gym. split; [|left; exact Hcur].
    unfold App.refreshAllGyms. rewrite list_lookup_imap, Hi. cbn.
    unfold App.refreshGym. rewrite Hfail. reflexivity. }
  split; [exact Hstale|]. rewrite Hstale.
  replace (0 <? length (App.refreshAllGyms captured world))%nat with true;
    [reflexivity|].
  symmetry. apply Nat.ltb_lt. unfold App.refreshAllGyms.
  rewrite length_imap. apply lookup_lt_Some in Hi. lia.
Qed.

Lemma stale_after_failed_first_fetch_witness :
  let gym := {| config := Server.cfg Server.glattpark;
                current := None; history := []; lastUpdated := 0 |} in
  let s0 := {| App.gyms := [gym]; App.isLoading := false;
               App.inflight := [] |} in
  let s := App.start s0 in
  let world := fun _ : nat =>
    {| App.reply := NetworkError;
       App.t_sample := 400000; App.t_done := 400001 |} in
  let s' := App.step s (App.BatchSettles 0 world) in
  App.step s' (App.StalenessCheck (fun _ => 400002)) = App.start s'.
Proof.
  intros gym s0 s world s'.
  exact (proj2 (stale_after_failed_first_fetch s 0 [gym] world
                  (fun _ => 400002) 0 gym eq_refl eq_refl eq_refl eq_refl)).
Defined.

(** ** Adding a gym in the app *)


(** ** The charts *)

Lemma recent_window_shape (now : Z) (data : list DataPoint) :
  Charts.recent now data = Js.slice_last 20 data \/
  Charts.recent now data
  = List.filter (fun d => now - Charts.oneDay <? timestamp d) data.
Proof.
  unfold Charts.recent.
  match goal with
  | |- context [if ?c then _ else _] => destruct c
  end; [left | right]; reflexivity.
Qed.

(** X11.  The recent-activity chart is empty only for an empty history:
    with any sample at all it shows at least one row, and never more
    rows than there are samples. *)
Theorem recent_chart_never_blank (formatTime formatDate : Z -> string)
    (now : Z) (data : list DataPoint) :
  (Charts.RecentActivityChart formatTime formatDate now data = []
     <-> data = []) /\
  (length (Charts.RecentActivityChart formatTime formatDate now data)
     <= length data)%nat.
Proof.
  unfold Charts.RecentActivityChart.
  assert (Hlen : (length (Charts.recent now data) <= length data)%nat).
  { apply sublist_length.
    destruct (recent_window_shape now data) as [-> | ->];
      [apply sublist_drop | apply filter_sublist]. }
  split; [|rewrite length_map; exact Hlen].
  split.
  - intros Hnil. apply map_eq_nil in Hnil.
    destruct data as [|d data]; [reflexivity|]. exfalso.
    unfold Charts.recent in Hnil.
    destruct (List.filter (fun d0 => (now - Charts.oneDay <? timestamp d0)%Z)
                (d :: data)) as [|q qs] eqn:Hq.
    + cbn in Hnil. unfold Js.slice_last in Hnil.
      apply (f_equal length) in Hnil. rewrite length_drop in Hnil.
      cbn [length] in Hnil. lia.
    + cbn in Hnil. discriminate Hnil.
  - intros ->. reflexivity.
Qed.

Lemma total_perm (l l' : list DataPoint) :
  Permutation l l' -> total l = total l'.
Proof.
  induction 1 as [|x l l' _ IH|x y l|l l' l'' _ IH1 _ IH2]; cbn.
  - reflexivity.
  - fold (total l) (total l'). lia.
  - fold (total l). lia.
  - congruence.
Qed.

Lemma filter_perm {A} (f : A -> bool) (l l' : list A) :
  Permutation l l' -> Permutation (List.filter f l) (List.filter f l').
Proof.
  induction 1 as [|x l l' _ IH|x y l|l l' l'' _ IH1 _ IH2]; cbn.
  - reflexivity.
  - destruct (f x); [constructor|]; exact IH.
  - destruct (f x), (f y); try reflexivity. apply Permutation_swap.
  - etransitivity; eassumption.
Qed.

(** The chart, bucket by bucket. *)
Lemma day_chart_by_buckets (tzOffset : Z -> Z) (data : list DataPoint) :
  Charts.DayAverageChart tzOffset data
  = imap (fun i day =>
            {| Charts.day := day;
               Charts.avg := shown_mean (bucket (Js.getDay tzOffset) i data) |})
         Charts.days.
Proof.
  unfold Charts.DayAverageChart.
  pose proof (accumulate_lookup (Js.getDay tzOffset) data) as Hacc.
  destruct (Charts.accumulate (Js.getDay tzOffset) data) as [sums counts].
  cbn [fst snd] in Hacc.
  apply list_eq. intros i. rewrite !list_lookup_imap.
  destruct (Charts.days !! i) as [day|] eqn:Hday; [|reflexivity].
  apply lookup_lt_Some in Hday as Hi.
  destruct (Hacc i Hi) as [Hs Hc]. cbn [fmap option_fmap option_map].
  rewrite Hs, Hc. reflexivity.
Qed.

(** X12.  The weekday averages depend on which samples the history
    holds, not on their order: any rearrangement of the history gives
    the same chart. *)
Theorem weekday_average_order_free (tzOffset : Z -> Z)
    (data data' : list DataPoint) :
  Permutation data data' ->
  Charts.DayAverageChart tzOffset data = Charts.DayAverageChart tzOffset data'.
Proof.
  intros Hperm. rewrite !day_chart_by_buckets.
  apply imap_ext. intros i day _. f_equal.
  unfold shown_mean, bucket.
  pose proof (filter_perm
                (fun d => Nat.eqb (Js.getDay tzOffset (timestamp d)) i)
                _ _ Hperm) as Hb.
  rewrite (total_perm _ _ Hb), (Permutation_length Hb). reflexivity.
Qed.

Lemma weekday_average_order_free_witness :
  let a := mkPoint 0 10 300 in
  let b := mkPoint 86400000 40 300 in
  Charts.DayAverageChart (fun _ => 0) [a; b]
  = Charts.DayAverageChart (fun _ => 0) [b; a].
Proof.
  intros a b. apply weekday_average_order_free. apply Permutation_swap.
Defined.

Lemma total_bounds (lo hi : Z) (b : list DataPoint) :
  Forall (fun d => lo <= visitors d <= hi) b ->
  lo * Z.of_nat (length b) <= total b <= hi * Z.of_nat (length b).
Proof.
  induction 1 as [|d b Hd _ IH]; cbn [total foldr length].
  - lia.
  - fold (total b). rewrite Nat2Z.inj_succ. nia.
Qed.

Lemma shown_mean_bounds (lo hi : Z) (b : list DataPoint) :
  b <> [] ->
  Forall (fun d => lo <= visitors d <= hi) b ->
  lo <= shown_mean b <= hi.
Proof.
  intros Hne Hall. unfold shown_mean.
  assert (Hpos : 0 < Z.of_nat (length b))
    by (destruct b; [congruence | cbn [length]; lia]).
  replace (0 <? Z.of_nat (length b)) with true
    by (symmetry; apply Z.ltb_lt; exact Hpos).
  pose proof (total_bounds lo hi b Hall) as Ht.
  pose proof (round_div_nearest (total b) (Z.of_nat (length b)) Hpos) as Hr.
  nia.
Qed.

(** X13.  The average shown for a day of the week lies between the
    smallest and the largest visitor count among the samples of that
    day: rounding never takes it outside what was measured. *)
Theorem weekday_average_within_range (tzOffset : Z -> Z)
    (data : list DataPoint) (i : nat) (dayName : string) (lo hi : Z) :
  Charts.days !! i = Some dayName ->
  bucket (Js.getDay tzOffset) i data <> [] ->
  Forall (fun d => lo <= visitors d <= hi)
         (bucket (Js.getDay tzOffset) i data) ->
  exists a,
    Charts.DayAverageChart tzOffset data !! i
      = Some {| Charts.day := dayName; Charts.avg := a |} /\
    lo <= a <= hi.
Proof.
  intros Hday Hne Hall. rewrite day_chart_by_buckets, list_lookup_imap, Hday.
  eexists. split; [reflexivity|].
  apply shown_mean_bounds; assumption.
Qed.

Lemma weekday_average_within_range_witness :
  let data := [mkPoint 0 10 300; mkPoint 5 13 300; mkPoint 86400000 40 300] in
  exists a,
    Charts.DayAverageChart (fun _ => 0) data !! 4%nat
      = Some {| Charts.day := "Thu"; Charts.avg := a |} /\
    10 <= a <= 13.
Proof.
  intros data.
  apply (weekday_average_within_range (fun _ => 0) data 4 "Thu" 10 13).
  - reflexivity.
  - discriminate.
  - repeat constructor; cbn; lia.
Defined.

Lemma accumulateHours_from (dayOf hourOf : Z -> nat) (today : nat)
    (data : list DataPoint) (sums counts : list Z) (h : nat) :
  let acc :=
    foldl (fun acc d =>
             if Nat.eqb (dayOf (timestamp d)) today
             then (alter (fun s => s + visitors d) (hourOf (timestamp d))
                         (fst acc),
                   alter (fun c => c + 1) (hourOf (timestamp d)) (snd acc))
             else acc)
          (sums, counts) data in
  acc.1 !! h
    = (fun s => s + total (hour_bucket dayOf hourOf today h data))
        <$> sums !! h /\
  acc.2 !! h
    = (fun c => c + Z.of_nat (length (hour_bucket dayOf hourOf today h data)))
        <$> counts !! h.
Proof.
  cbv zeta. revert sums counts.
  induction data as [|d data IH]; intros sums counts.
  - cbn. split.
    + destruct (sums !! h); cbn; [f_equal; lia | reflexivity].
    + destruct (counts !! h); cbn; [f_equal; lia | reflexivity].
  - cbn [foldl]. unfold hour_bucket. cbn [List.filter].
    destruct (Nat.eqb (dayOf (timestamp d)) today); cbn [andb fst snd];
      [|apply IH].
    destruct (IH (alter (fun s => s + visitors d) (hourOf (timestamp d)) sums)
                 (alter (fun c => c + 1) (hourOf (timestamp d)) counts))
      as [Hs Hc].
    rewrite Hs, Hc. clear Hs Hc IH. unfold hour_bucket.
    destruct (Nat.eqb_spec (hourOf (timestamp d)) h) as [Heq|Hne].
    + rewrite Heq, !list_lookup_alter_eq.
      match goal with
      | |- context [total (d :: ?r)] =>
          set (rest := r); change (total (d :: rest))
                             with (visitors d + total rest)
      end.
      rewrite length_cons, Nat2Z.inj_succ.
      split.
      * destruct (sums !! h) as [s|]; [|reflexivity].
        cbn [fmap option_fmap option_map]. f_equal. lia.
      * destruct (counts !! h) as [c|]; [|reflexivity].
        cbn [fmap option_fmap option_map]. f_equal. lia.
    + rewrite !list_lookup_alter_ne by exact Hne. split; reflexivity.
Qed.

Lemma filter_filter_implied {A} (f g : A -> bool) (l : list A) :
  (forall x, f x = true -> g x = true) ->
  List.filter f (List.filter g l) = List.filter f l.
Proof.
  intros Himp. induction l as [|x l IH]; [reflexivity|].
  cbn [List.filter].
  destruct (g x) eqn:Hg.
  - cbn [List.filter]. rewrite IH. reflexivity.
  - rewrite IH. destruct (f x) eqn:Hf; [|reflexivity].
    rewrite (Himp x Hf) in Hg. discriminate Hg.
Qed.

Lemma hourly_chart_by_buckets (tzOffset : Z -> Z) (now : Z)
    (data : list DataPoint) :
  Charts.DailyHourlyChart tzOffset now data
  = map (fun h =>
           {| Charts.time := Js.toString (Z.of_nat h) ++ ":00";
              Charts.hour_avg :=
                shown_mean (hour_bucket (Js.getDay tzOffset)
                              (Js.getHours tzOffset)
                              (Js.getDay tzOffset now) h data) |})
        (seq 6 17).
Proof.
  unfold Charts.DailyHourlyChart, Charts.accumulateHours.
  pose proof (accumulateHours_from (Js.getDay tzOffset) (Js.getHours tzOffset)
                (Js.getDay tzOffset now) data (replicate 24 0)
                (replicate 24 0)) as Hacc.
  cbv zeta in Hacc.
  match type of Hacc with
  | context [foldl ?f ?a ?l] => destruct (foldl f a l) as [sums counts]
  end.
  cbn [fst snd] in Hacc.
  apply map_ext_in. intros h Hh. apply in_seq in Hh.
  destruct (Hacc h) as [Hs Hc].
  rewrite lookup_replicate_2 in Hs, Hc by lia.
  rewrite Hs, Hc. reflexivity.
Qed.

(** X14.  The hourly chart shows 17 rows, labelled 6:00 to 22:00; the
    row of an hour is the rounded mean of the samples taken during that
    hour on the same day of the week as today, 0 when there is none.
    Samples of other days of the week, and samples taken before 06:00
    or from 23:00 on, have no effect on it. *)
Theorem hourly_chart_rows (tzOffset : Z -> Z) (now : Z)
    (data : list DataPoint) :
  let today := Js.getDay tzOffset now in
  let shown := fun d =>
    (Nat.eqb (Js.getDay tzOffset (timestamp d)) today
     && (6 <=? Js.getHours tzOffset (timestamp d))%nat
     && (Js.getHours tzOffset (timestamp d) <=? 22)%nat)%bool in
  length (Charts.DailyHourlyChart tzOffset now data) = 17%nat /\
  (forall k, (k < 17)%nat ->
     Charts.DailyHourlyChart tzOffset now data !! k
     = Some {| Charts.time := Js.toString (6 + Z.of_nat k) ++ ":00";
               Charts.hour_avg :=
                 shown_mean (hour_bucket (Js.getDay tzOffset)
                               (Js.getHours tzOffset) today (6 + k) data) |}) /\
  Charts.DailyHourlyChart tzOffset now (List.filter shown data)
  = Charts.DailyHourlyChart tzOffset now data.
Proof.
  cbv zeta. rewrite !hourly_chart_by_buckets.
  split; [rewrite length_map, length_seq; reflexivity|]. split.
  - intros k Hk. change (map ?f ?l) with (f <$> l).
    rewrite list_lookup_fmap, lookup_seq_lt by exact Hk.
    cbn [fmap option_fmap option_map].
    replace (Z.of_nat (6 + k)) with (6 + Z.of_nat k) by lia. reflexivity.
  - apply map_ext_in. intros h Hh. apply in_seq in Hh. f_equal. f_equal.
    unfold hour_bucket. apply filter_filter_implied.
    intros d Hd. apply andb_true_iff in Hd as [Hday Hhour].
    apply Nat.eqb_eq in Hhour. rewrite Hday, Hhour. cbn [andb].
    apply andb_true_iff. split; apply Nat.leb_le; lia.
Qed.

(** Two Sundays, a sample at 07:10 on each, one at 23:30 and one on a
    Monday: only the first two count. *)
Example hourly_chart_example :
  let day := 86400000 in
  let data := [mkPoint (3 * day + 7 * 3600000 + 600000) 10 300;
               mkPoint (10 * day + 7 * 3600000 + 600000) 13 300;
               mkPoint (3 * day + 23 * 3600000 + 1800000) 99 300;
               mkPoint (4 * day + 7 * 3600000) 1000 300] in
  Charts.DailyHourlyChart (fun _ => 0) (17 * day) data !! 1%nat
  = Some {| Charts.time := "7:00"; Charts.hour_avg := 12 |}.
Proof. reflexivity. Qed.

(** ** The updater: what a run leaves alone, and the first sample *)

Lemma updates_untouched (steps : list (Updater.Gym * Updater.Sampling))
    (db : DB) (k : string) :
  Forall (fun s => Updater.id s.1 = k ->
                   Updater.fetchVisitors (Updater.reply s.2) = None) steps ->
  Updater.updates steps db !! k = db !! k.
Proof.
  revert db. induction steps as [|[g w] steps IH]; intros db Hall;
    [reflexivity|].
  apply Forall_cons in Hall as [Hs Hrest]. cbn [fst snd] in Hs.
  change (Updater.updates ((g, w) :: steps) db)
    with (Updater.updates steps (Updater.update_gym g w db)).
  rewrite IH by exact Hrest. unfold Updater.update_gym.
  destruct (Updater.fetchVisitors (Updater.reply w)) as [v|] eqn:Hv;
    [|reflexivity].
  apply lookup_insert_ne. intros Hid. specialize (Hs Hid). discriminate Hs.
Qed.

(** X15.  A run of the updater changes the stored history of a facility
    only if a gym of its list with that id was fetched with success:
    facilities that are not listed, and listed ones whose every fetch
    failed, are written back exactly as they were loaded (a facility
    without an entry gets none). *)
Theorem updater_touches_only_sampled (gyms : list Updater.Gym)
    (f : BackingFile) (world : nat -> Updater.Sampling) (k : string) :
  (forall i g, gyms !! i = Some g -> Updater.id g = k ->
     Updater.fetchVisitors (Updater.reply (world i)) = None) ->
  (Updater.run_with gyms f world).1 !! k = Updater.load f !! k.
Proof.
  intros Hfail. rewrite updater_run_updates. apply updates_untouched.
  apply Forall_lookup. intros i [g w] Hi.
  rewrite list_lookup_imap in Hi.
  destruct (gyms !! i) as [g0|] eqn:Hg0; [|discriminate Hi].
  cbn in Hi. injection Hi as <- <-. cbn [fst snd].
  intros Hid. exact (Hfail i g0 Hg0 Hid).
Qed.

Lemma updater_touches_only_sampled_witness :
  let world := fun _ : nat =>
    {| Updater.reply := Reply true "76";
       Updater.t_sample := 30000; Updater.t_check := 30001 |} in
  let doc : DB := {[ "oerlikon" := [mkPoint 0 78 300] ]} in
  (Updater.run_with Updater.GYMS (Document doc) world).1 !! "oerlikon"
  = Some [mkPoint 0 78 300].
Proof.
  intros world doc.
  apply (updater_touches_only_sampled Updater.GYMS (Document doc) world
           "oerlikon").
  intros i g Hi Hid. destruct i as [|i]; [|discriminate Hi].
  injection Hi as <-. discriminate Hid.
Defined.

(** X16.  The first sample of a facility is always stored, whatever the
    clock reads: for a facility with no entry, or an empty one, a
    successful fetch leaves a history of exactly that sample.  Started
    with no backing file, or one that cannot be read or parsed, a run
    over one gym whose fetch succeeds writes a document holding that
    gym with that one sample and nothing else. *)
Theorem updater_first_sample (g : Updater.Gym) (w : Updater.Sampling)
    (db : DB) (v : Z) (f : BackingFile) :
  Updater.fetchVisitors (Updater.reply w) = Some v ->
  default [] (db !! Updater.id g) = [] ->
  f = Missing \/ f = Unreadable \/ f = Malformed ->
  let p := mkPoint (Updater.t_sample w) v 300 in
  Updater.update_gym g w db !! Updater.id g = Some [p] /\
  Updater.run_with [g] f (fun _ => w)
  = ({[ Updater.id g := [p] ]},
     [EvFetch (Updater.id g); EvWrite {[ Updater.id g := [p] ]}]).
Proof.
  intros Hv Hempty Hf. cbv zeta.
  assert (Hstep : forall d : DB,
            default [] (d !! Updater.id g) = [] ->
            Updater.update_gym g w d
            = <[Updater.id g := [mkPoint (Updater.t_sample w) v 300]]> d).
  { intros d Hd. unfold Updater.update_gym. rewrite Hv, Hd. reflexivity. }
  split.
  - rewrite (Hstep db Hempty). apply lookup_insert_eq.
  - assert (Hload : Updater.load f = ∅)
      by (destruct Hf as [->|[->| ->]]; reflexivity).
    unfold Updater.run_with. cbn [Updater.loop]. rewrite Hload.
    rewrite (Hstep ∅) by (rewrite lookup_empty; reflexivity).
    reflexivity.
Qed.

Lemma updater_first_sample_witness :
  let g := {| Updater.id := "glattpark"; Updater.url := "" |} in
  let w := {| Updater.reply := Reply true " 41 ";
              Updater.t_sample := 5; Updater.t_check := 6 |} in
  Updater.run_with [g] Malformed (fun _ => w)
  = ({[ "glattpark" := [mkPoint 5 41 300] ]},
     [EvFetch "glattpark"; EvWrite {[ "glattpark" := [mkPoint 5 41 300] ]}]).
Proof.
  intros g w.
  exact (proj2 (updater_first_sample g w ∅ 41 Malformed eq_refl eq_refl
                  (or_intror (or_intror eq_refl)))).
Defined.

(** ** Reading back a number in decimal *)

Lemma append_cons (c : ascii) (a b : string) :
  (String c a ++ b)%string = String c (a ++ b)%string.
Proof. reflexivity. Qed.

Lemma trimStart_skips (w s : string) :
  all_chars Js.isWhiteSpace w = true ->
  Js.trimStart (w ++ s) = Js.trimStart s.
Proof.
  induction w as [|c w IH]; intros Hw; [reflexivity|].
  cbn [all_chars] in Hw. apply andb_true_iff in Hw as [Hc Hw].
  rewrite append_cons. cbn [Js.trimStart]. rewrite Hc. apply IH. exact Hw.
Qed.

Lemma trimStart_fixed (s : string) :
  all_chars (fun c => negb (Js.isWhiteSpace c)) s = true ->
  Js.trimStart s = s.
Proof.
  destruct s as [|c s]; [reflexivity|]. cbn [all_chars Js.trimStart].
  intros H. apply andb_true_iff in H as [Hc _].
  apply negb_true_iff in Hc. rewrite Hc. reflexivity.
Qed.

Lemma reverse_append (a b acc : string) :
  Js.reverse (a ++ b) acc = Js.reverse b (Js.reverse a acc).
Proof.
  revert acc. induction a as [|c a IH]; intros acc; [reflexivity|].
  rewrite append_cons. cbn [Js.reverse]. apply IH.
Qed.

Lemma reverse_reverse (a acc acc' : string) :
  Js.reverse (Js.reverse a acc) acc' = Js.reverse acc (a ++ acc').
Proof.
  revert acc acc'. induction a as [|c a IH]; intros acc acc'; [reflexivity|].
  rewrite append_cons. cbn [Js.reverse]. rewrite IH. reflexivity.
Qed.

Lemma trimStart_reverse_skips (w acc : string) :
  all_chars Js.isWhiteSpace w = true ->
  Js.trimStart (Js.reverse w acc) = Js.trimStart acc.
Proof.
  revert acc. induction w as [|c w IH]; intros acc Hw; [reflexivity|].
  cbn [all_chars] in Hw. apply andb_true_iff in Hw as [Hc Hw].
  cbn [Js.reverse]. rewrite IH by exact Hw.
  cbn [Js.trimStart]. rewrite Hc. reflexivity.
Qed.

Lemma all_chars_reverse (p : ascii -> bool) (s acc : string) :
  all_chars p s = true -> all_chars p acc = true ->
  all_chars p (Js.reverse s acc) = true.
Proof.
  revert acc. induction s as [|c s IH]; intros acc Hs Hacc; [exact Hacc|].
  cbn [all_chars] in Hs. apply andb_true_iff in Hs as [Hc Hs].
  cbn [Js.reverse]. apply IH; [exact Hs|].
  cbn [all_chars]. rewrite Hc, Hacc. reflexivity.
Qed.

Lemma append_empty (s : string) : (s ++ "")%string = s.
Proof.
  induction s as [|c s IH]; [reflexivity|].
  rewrite append_cons, IH. reflexivity.
Qed.

(** [trim] removes white space around a text that holds none. *)
Lemma trim_core (w1 core w2 : string) :
  all_chars Js.isWhiteSpace w1 = true ->
  all_chars Js.isWhiteSpace w2 = true ->
  all_chars (fun c => negb (Js.isWhiteSpace c)) core = true ->
  Js.trim (w1 ++ core ++ w2) = core.
Proof.
  intros Hw1 Hw2 Hcore. unfold Js.trim.
  rewrite trimStart_skips by exact Hw1.
  assert (Hend : Js.trimEnd (core ++ w2) = core).
  { unfold Js.trimEnd.
    rewrite reverse_append, trimStart_reverse_skips by exact Hw2.
    rewrite trimStart_fixed
      by (apply all_chars_reverse; [exact Hcore | reflexivity]).
    rewrite reverse_reverse. cbn [Js.reverse]. apply append_empty. }
  destruct core as [|c core].
  - change (EmptyString ++ w2)%string with w2 in *.
    assert (Hnone : Js.trimStart w2 = EmptyString).
    { rewrite <- (append_empty w2), trimStart_skips by exact Hw2.
      reflexivity. }
    rewrite Hnone. reflexivity.
  - cbn [all_chars] in Hcore. apply andb_true_iff in Hcore as [Hc Hcore'].
    apply negb_true_iff in Hc.
    assert (Hstart : Js.trimStart (String c core ++ w2)
                     = (String c core ++ w2)%string)
      by (rewrite append_cons; cbn [Js.trimStart]; rewrite Hc; reflexivity).
    rewrite Hstart. exact Hend.
Qed.

Lemma digits_positive (d : Decimal.uint) (acc : positive) :
  Js.digits (NilEmpty.string_of_uint d) (Some (Z.pos acc))
  = Some (Z.pos (Pos.of_uint_acc d acc)).
Proof.
  revert acc. induction d as [|d IH|d IH|d IH|d IH|d IH|d IH|d IH|d IH|d IH|d IH];
    intros acc; [reflexivity|..];
    cbn [NilEmpty.string_of_uint Js.digits Pos.of_uint_acc];
    match goal with
    | |- context [Js.isDigit ?c] => change (Js.isDigit c) with true
    end; cbv iota; cbn [default from_option Datatypes.id];
    match goal with
    | |- context [Js.digitValue ?c] =>
        let v := eval vm_compute in (Js.digitValue c) in
        change (Js.digitValue c) with v
    end;
    rewrite <- IH; f_equal; f_equal; lia.
Qed.

Lemma digits_from_zero (d : Decimal.uint) :
  Js.digits (NilEmpty.string_of_uint d) (Some 0)
  = Some (Z.of_N (Pos.of_uint d)).
Proof.
  induction d as [|d IH|d IH|d IH|d IH|d IH|d IH|d IH|d IH|d IH|d IH];
    [reflexivity | exact IH |..];
    cbn [NilEmpty.string_of_uint Js.digits Pos.of_uint];
    match goal with
    | |- context [Js.isDigit ?c] => change (Js.isDigit c) with true
    end; cbv iota; apply (digits_positive d).
Qed.

Lemma parseInt10_digits (d : Decimal.uint) :
  d <> Decimal.Nil ->
  Js.parseInt10 (NilEmpty.string_of_uint d) = Some (Z.of_N (Pos.of_uint d)) /\
  Js.digits (NilEmpty.string_of_uint d) None = Some (Z.of_N (Pos.of_uint d)).
Proof.
  intros Hd. rewrite <- digits_from_zero.
  destruct d; [congruence|..]; split; reflexivity.
Qed.

Lemma to_uint_not_nil (p : positive) : Pos.to_uint p <> Decimal.Nil.
Proof.
  intros H. pose proof (DecimalPos.Unsigned.of_to p) as Hof.
  rewrite H in Hof. discriminate Hof.
Qed.

(** [parseInt] reads back what [toString] wrote. *)
Lemma parseInt10_toString (z : Z) : Js.parseInt10 (Js.toString z) = Some z.
Proof.
  unfold Js.toString. destruct z as [|p|p]; [reflexivity| |].
  - cbn [Z.to_int NilEmpty.string_of_int].
    rewrite (proj1 (parseInt10_digits _ (to_uint_not_nil p))).
    rewrite DecimalPos.Unsigned.of_to. reflexivity.
  - cbn [Z.to_int NilEmpty.string_of_int].
    unfold Js.parseInt10. cbn [Js.trimStart].
    change (Js.isWhiteSpace "-") with false. cbv iota.
    change (Ascii.eqb "-" "-") with true. cbv iota.
    rewrite (proj2 (parseInt10_digits _ (to_uint_not_nil p))).
    rewrite DecimalPos.Unsigned.of_to. reflexivity.
Qed.

Lemma digits_no_space (d : Decimal.uint) :
  all_chars (fun c => negb (Js.isWhiteSpace c)) (NilEmpty.string_of_uint d)
  = true.
Proof.
  induction d as [|d IH|d IH|d IH|d IH|d IH|d IH|d IH|d IH|d IH|d IH];
    [reflexivity|..];
    cbn [NilEmpty.string_of_uint all_chars]; rewrite IH; reflexivity.
Qed.

Lemma toString_no_space (z : Z) :
  all_chars (fun c => negb (Js.isWhiteSpace c)) (Js.toString z) = true.
Proof.
  unfold Js.toString. destruct z as [|p|p]; [reflexivity| |];
    cbn [Z.to_int NilEmpty.string_of_int all_chars];
    rewrite digits_no_space; reflexivity.
Qed.

(** X17.  A response body that is an integer written in decimal, with
    any white space before and after it, is read back as that integer
    by every sampler, for an integer a JavaScript number holds exactly:
    the app's [fetchGymData] returns a sample with exactly that visitor
    count, the time of the call and capacity 300, the updater's
    [fetchVisitors] returns the count, and the server's [fetchGymData]
    returns the same sample when the write succeeds, unless the
    document only inherits what it has under the gym's id. *)
Theorem sampler_reads_decimal (z now : Z) (w1 w2 : string) :
  exact_number z ->
  all_chars Js.isWhiteSpace w1 = true ->
  all_chars Js.isWhiteSpace w2 = true ->
  let body := (w1 ++ Js.toString z ++ w2)%string in
  GymService.fetchGymData (Reply true body) now = Some (mkPoint now z 300) /\
  Updater.fetchVisitors (Reply true body) = Some z /\
  forall (g : Server.Gym) (db : DB),
    (Server.fetchGymData g
       {| Server.reply := Reply true body; Server.now := now;
          Server.save_ok := true |} db).2
    = match Js.read db (id (Server.cfg g)) with
      | Js.Inherits _ => None
      | _ => Some (mkPoint now z 300)
      end.
Proof.
  intros _ Hw1 Hw2. cbv zeta.
  unfold GymService.fetchGymData, Updater.fetchVisitors, Server.fetchGymData.
  cbn [negb Server.reply Server.now Server.save_ok].
  rewrite (trim_core w1 (Js.toString z) w2 Hw1 Hw2 (toString_no_space z)).
  rewrite parseInt10_toString. split; [reflexivity|]. split; [reflexivity|].
  intros g db. destruct (Js.read db (id (Server.cfg g))); reflexivity.
Qed.

Lemma sampler_reads_decimal_witness :
  GymService.fetchGymData (Reply true (" " ++ Js.toString 127 ++ " ")%string)
                          1000
  = Some (mkPoint 1000 127 300).
Proof.
  apply (sampler_reads_decimal 127 1000 " " " ");
    [unfold exact_number; lia | reflexivity | reflexivity].
Defined.

(** ** The prediction request *)

Lemma ascending_below_last (h : list DataPoint) (p : DataPoint) :
  ascending h = true -> last h = Some p ->
  Forall (fun d => timestamp d <= timestamp p) h.
Proof.
  induction h as [|a t IH]; intros Hasc Hlast; [constructor|].
  destruct t as [|b t].
  - injection Hlast as <-. repeat constructor. lia.
  - change (ascending (a :: b :: t))
      with ((timestamp a <=? timestamp b) && ascending (b :: t)) in Hasc.
    apply andb_true_iff in Hasc as [Hab Ht]. apply Z.leb_le in Hab.
    rewrite last_cons_cons in Hlast. specialize (IH Ht Hlast).
    constructor; [|exact IH].
    apply Forall_cons in IH as [Hb _]. lia.
Qed.

Lemma last_filter_keeps {A} (f : A -> bool) (l : list A) (x : A) :
  last l = Some x -> f x = true -> last (List.filter f l) = Some x.
Proof.
  intros Hlast Hx. apply last_Some in Hlast as [l' ->].
  rewrite List.filter_app. cbn [List.filter]. rewrite Hx. apply last_snoc.
Qed.

(** X18.  For a history sorted ascending, the sample the prediction
    request takes as the current one is the last entry of the history,
    whether or not it falls in the last four hours.  When the service
    gives no usable answer (the call throws, the response has no text,
    or the text is not JSON), the request does not fail: it returns the
    trend Stable with confidence 0 and that sample's visitors as the
    usage predicted for the next hour. *)
Theorem prediction_falls_back_to_last_sample (key : string) (now : Z)
    (history : list DataPoint) (p : DataPoint)
    (g : GeminiService.Generated) :
  ascending history = true ->
  last history = Some p ->
  key <> "" ->
  (forall a, g <> GeminiService.Answer a) ->
  GeminiService.currentVisitors now history = visitors p /\
  GeminiService.getUtilizationPrediction (Some key) now history g
  = Returns {| GeminiService.trend := GeminiService.Stable;
               GeminiService.confidence := 0;
               GeminiService.reasoning := "AI prediction unavailable.";
               GeminiService.predictedUsageNextHour := visitors p |}.
Proof.
  intros Hasc Hlast Hkey Hg.
  assert (Hcur : GeminiService.currentVisitors now history = visitors p).
  { unfold GeminiService.currentVisitors, GeminiService.effectiveRecentData.
    cbv zeta.
    set (f := fun d : DataPoint => now - 4 * (3600 * 1000) <? timestamp d).
    destruct (List.filter f history) as [|q qs] eqn:Hq.
    - cbn [length Nat.ltb Nat.leb]. rewrite last_slice_last by lia.
      rewrite Hlast. reflexivity.
    - cbn [length Nat.ltb Nat.leb]. rewrite <- Hq.
      assert (Hin : In q (List.filter f history)) by (rewrite Hq; left; reflexivity).
      apply filter_In in Hin as [Hin Hfq].
      pose proof (ascending_below_last history p Hasc Hlast) as Hle.
      rewrite Forall_forall in Hle.
      apply list_elem_of_In in Hin. specialize (Hle q Hin). cbn beta in Hle.
      assert (Hfp : f p = true).
      { subst f. cbn beta in *. apply Z.ltb_lt. apply Z.ltb_lt in Hfq. lia. }
      rewrite (last_filter_keeps f history p Hlast Hfp). reflexivity. }
  split; [exact Hcur|].
  unfold GeminiService.getUtilizationPrediction.
  destruct (String.eqb_spec key "") as [Hempty|_]; [contradiction|].
  rewrite Hcur. destruct g as [| | |a]; try reflexivity.
  exfalso. exact (Hg a eq_refl).
Qed.

Lemma prediction_falls_back_to_last_sample_witness :
  GeminiService.getUtilizationPrediction (Some "k") (100 * 86400000)
    [mkPoint 0 78 300; mkPoint 1800000 76 300] GeminiService.NotJson
  = Returns {| GeminiService.trend := GeminiService.Stable;
               GeminiService.confidence := 0;
               GeminiService.reasoning := "AI prediction unavailable.";
               GeminiService.predictedUsageNextHour := 76 |}.
Proof.
  apply (prediction_falls_back_to_last_sample "k" (100 * 86400000)
           [mkPoint 0 78 300; mkPoint 1800000 76 300]
           (mkPoint 1800000 76 300) GeminiService.NotJson);
    [reflexivity | reflexivity | discriminate | discriminate].
Defined.

(** Without the order the current sample need not be the last entry. *)
Example prediction_needs_order :
  GeminiService.currentVisitors 1000 [mkPoint 900 50 300; mkPoint (-90000000) 7 300]
  = 50.
Proof. reflexivity. Qed.

(** ** The form that adds a gym *)

(** X19.  Every configuration the form submits has a park id, a
    location id, a location name and a name that are not empty, the
    three first being the link's [park_id], [location_id] and
    [location_name] parameters, and has the time of the submission, in
    decimal, as its id. *)
Theorem form_submits_complete_config
    (searchParams : string -> option (string -> option string))
    (name' url : string) (now : Z) (c : GymConfig) :
  AddGymModal.handleSubmit searchParams name' url now = Some c ->
  parkId c <> "" /\ locationId c <> "" /\ locationName c <> "" /\
  name c <> "" /\ id c = Js.toString now /\
  (name' <> "" -> name c = name') /\
  exists get,
    searchParams (AddGymModal.urlToParse url) = Some get /\
    get "park_id" = Some (parkId c) /\
    get "location_id" = Some (locationId c) /\
    get "location_name" = Some (locationName c).
Proof.
  unfold AddGymModal.handleSubmit.
  destruct (searchParams (AddGymModal.urlToParse url)) as [get|];
    [|discriminate].
  destruct (get "park_id") as [pid|] eqn:Hpid; [|discriminate].
  destruct (get "location_id") as [lid|] eqn:Hlid; [|discriminate].
  destruct (get "location_name") as [lname|] eqn:Hlname; [|discriminate].
  destruct (String.eqb_spec pid "") as [|Hp]; [discriminate|].
  destruct (String.eqb_spec lid "") as [|Hl]; [discriminate|].
  destruct (String.eqb_spec lname "") as [|Hn]; [discriminate|].
  cbn [orb]. intros Hc. injection Hc as <-. cbn [parkId locationId locationName name id].
  repeat split; try assumption.
  - destruct (String.eqb_spec name' ""); assumption.
  - intros Hname. destruct (String.eqb_spec name' ""); [contradiction|reflexivity].
  - exists get. repeat split; assumption.
Qed.

Lemma form_submits_complete_config_witness :
  let searchParams := fun _ : string =>
    Some (fun k : string =>
            if String.eqb k "park_id" then Some "698"
            else if String.eqb k "location_id" then Some "31"
            else if String.eqb k "location_name" then Some "FP_Glattpark"
            else None) in
  exists c,
    AddGymModal.handleSubmit searchParams "" "park_id=698" 1750000000000
      = Some c /\
    name c = "FP_Glattpark" /\ id c = "1750000000000".
Proof.
  intros searchParams. eexists. split; [reflexivity|].
  destruct (form_submits_complete_config searchParams "" "park_id=698"
              1750000000000 _ eq_refl) as (_ & _ & _ & _ & Hid & _).
  split; [reflexivity | exact Hid].
Defined.

(** A pasted path with parameters, and parameters alone. *)
Example form_link_examples :
  AddGymModal.urlToParse " admin-ajax.php?park_id=698&location_id=31 "
    = "http://dummy.com?park_id=698&location_id=31" /\
  AddGymModal.urlToParse "park_id=698&location_id=31"
    = "http://dummy.com?park_id=698&location_id=31".
Proof. split; reflexivity. Qed.

(** ** Adding a gym on the server *)

(** X21.  A gym posted to the server with an id and a url joins the
    tracked gyms at the end and its first fetch starts at once; when
    the request and the parse of that fetch succeed, [GET /api/gyms]
    lists the gym last, with the sample as current and at the end of
    the history stored under its id.  The exception is an id under
    which the document has nothing of its own but inherits a member
    ([constructor], [toString], ...): the gym is tracked all the same,
    no sample is stored, and it is listed with no array as history, no
    current sample and lastUpdated 0. *)
Theorem server_added_gym_reported (s : Server.State) (g : Server.Gym)
    (w : Server.Sampling) (p : DataPoint) :
  tracked_ok g ->
  GymService.fetchGymData (Server.reply w) (Server.now w) = Some p ->
  let s1 := Server.step s (Server.AddGym g) in
  let s2 := Server.step s1 (Server.Settles (length (Server.tasks s)) w) in
  Server.gyms s1 = Server.gyms s ++ [g] /\
  Server.tasks s1 = Server.tasks s ++ [Server.Single g] /\
  Server.tasks s2 = Server.tasks s /\
  last (Server.api_gyms (Server.gyms s2) (Server.db s2))
  = match Js.read (Server.db s) (id (Server.cfg g)) with
    | Js.Inherits v =>
        Some {| Server.entry_config := Server.cfg g;
                Server.entry_history :=
                  match v with
                  | Js.Method => Server.Omitted
                  | Js.Prototype => Server.EmptyObject
                  end;
                Server.entry_current := None;
                Server.entry_lastUpdated := 0 |}
    | _ =>
        Some (Server.listed
                {| config := Server.cfg g;
                   current := Some p;
                   history :=
                     default [] (Server.db s !! id (Server.cfg g)) ++ [p];
                   lastUpdated := timestamp p |})
    end.
Proof.
  intros [Hid Hurl] Hp. cbv zeta.
  assert (Hs1 : Server.step s (Server.AddGym g)
                = {| Server.db := Server.db s;
                     Server.gyms := Server.gyms s ++ [g];
                     Server.tasks := Server.tasks s ++ [Server.Single g];
                     Server.trace := Server.trace s
                                     ++ [EvFetch (id (Server.cfg g))] |}).
  { cbn [Server.step].
    destruct (String.eqb_spec (id (Server.cfg g)) ""); [contradiction|].
    destruct (String.eqb_spec (Server.url g) ""); [contradiction|].
    reflexivity. }
  rewrite Hs1. cbn [Server.gyms Server.tasks].
  split; [reflexivity|]. split; [reflexivity|].
  cbn [Server.step Server.tasks Server.db Server.gyms Server.trace].
  rewrite list_lookup_middle by reflexivity.
  destruct (read_cases (Server.db s) (id (Server.cfg g)))
    as [[Huse Hread]|(v & Hno & _ & Hread)].
  - rewrite (server_fetch_sampled g w (Server.db s) p Hp Huse).
    cbn [Server.tasks Server.gyms Server.db]. split.
    + rewrite delete_middle. apply app_nil_r.
    + unfold Server.api_gyms. rewrite map_app. cbn [map]. rewrite last_snoc.
      rewrite read_insert_eq, last_snoc, Hread.
      destruct (Server.db s !! id (Server.cfg g)); reflexivity.
  - rewrite (server_fetch_inherited g w (Server.db s) Hno).
    cbn [Server.tasks Server.gyms Server.db]. split.
    + rewrite delete_middle. apply app_nil_r.
    + unfold Server.api_gyms. rewrite map_app. cbn [map]. rewrite last_snoc.
      rewrite Hread. destruct v; reflexivity.
Qed.

Lemma server_added_gym_reported_witness :
  let g := {| Server.cfg := {| id := "oerlikon"; name := "FP Oerlikon";
                               parkId := "1"; locationId := "2";
                               locationName := "FP_Oerlikon" |};
              Server.url := "u" |} in
  let w := {| Server.reply := Reply true "41";
              Server.now := 5000; Server.save_ok := true |} in
  let s1 := Server.step (Server.booted Server.db0) (Server.AddGym g) in
  let s2 := Server.step s1 (Server.Settles 0 w) in
  last (Server.api_gyms (Server.gyms s2) (Server.db s2))
  = Some (Server.listed
            {| config := Server.cfg g;
               current := Some (mkPoint 5000 41 300);
               history := [mkPoint 5000 41 300];
               lastUpdated := 5000 |}).
Proof.
  intros g w s1 s2.
  destruct (server_added_gym_reported (Server.booted Server.db0) g w
              (mkPoint 5000 41 300)) as (_ & _ & _ & Hlast);
    [split; discriminate | reflexivity |].
  exact Hlast.
Defined.

(** X22.  A batch walks the list of gyms as it stands when each fetch
    settles: a gym added while the batch waits for the last gym of the
    list is fetched by that batch as well, besides the fetch its own
    request started; had it not been added, the batch would have ended
    there. *)
Theorem server_batch_picks_up_added_gym (s : Server.State) (k pc : nat)
    (g0 g : Server.Gym) (w : Server.Sampling) :
  Server.tasks s !! k = Some (Server.Batch pc) ->
  Server.gyms s !! pc = Some g0 ->
  S pc = length (Server.gyms s) ->
  tracked_ok g ->
  let s' := Server.step (Server.step s (Server.AddGym g))
                        (Server.Settles k w) in
  Server.tasks s' !! k = Some (Server.Batch (S pc)) /\
  Server.gyms s' !! S pc = Some g /\
  last (Server.trace s') = Some (EvFetch (id (Server.cfg g))) /\
  Server.tasks (Server.step s (Server.Settles k w))
  = delete k (Server.tasks s).
Proof.
  intros Hk Hpc Hlast [Hid Hurl]. cbv zeta.
  assert (Hs1 : Server.step s (Server.AddGym g)
                = {| Server.db := Server.db s;
                     Server.gyms := Server.gyms s ++ [g];
                     Server.tasks := Server.tasks s ++ [Server.Single g];
                     Server.trace := Server.trace s
                                     ++ [EvFetch (id (Server.cfg g))] |}).
  { cbn [Server.step].
    destruct (String.eqb_spec (id (Server.cfg g)) ""); [contradiction|].
    destruct (String.eqb_spec (Server.url g) ""); [contradiction|].
    reflexivity. }
  rewrite Hs1.
  cbn [Server.step Server.tasks Server.db Server.gyms Server.trace].
  rewrite (lookup_app_l_Some _ _ _ _ Hk).
  rewrite (lookup_app_l_Some _ _ _ _ Hpc).
  rewrite Hk, Hpc.
  assert (Hnew : (Server.gyms s ++ [g]) !! S pc = Some g)
    by (apply list_lookup_middle; exact Hlast).
  assert (Hend : Server.gyms s !! S pc = None)
    by (apply lookup_ge_None_2; lia).
  rewrite Hnew, Hend.
  destruct (Server.fetchGymData g0 w (Server.db s)) as [[db' writes] ret].
  cbn [Server.tasks Server.gyms Server.trace].
  split; [|split; [exact Hnew|split]].
  - apply list_lookup_insert_eq. rewrite length_app.
    apply lookup_lt_Some in Hk. lia.
  - rewrite !app_assoc. apply last_snoc.
  - reflexivity.
Qed.

Lemma server_batch_picks_up_added_gym_witness :
  let g := {| Server.cfg := {| id := "oerlikon"; name := "FP Oerlikon";
                               parkId := "1"; locationId := "2";
                               locationName := "FP_Oerlikon" |};
              Server.url := "u" |} in
  let w := {| Server.reply := Reply true "41";
              Server.now := 5000; Server.save_ok := true |} in
  let s := Server.step (Server.booted Server.db0) (Server.Fire Server.Startup) in
  let s' := Server.step (Server.step s (Server.AddGym g))
                        (Server.Settles 0 w) in
  Server.tasks s' !! 0%nat = Some (Server.Batch 1) /\
  last (Server.trace s') = Some (EvFetch "oerlikon").
Proof.
  intros g w s s'.
  destruct (server_batch_picks_up_added_gym s 0 0 Server.glattpark g w
              eq_refl eq_refl eq_refl) as (Htask & _ & Htrace & _);
    [split; discriminate |].
  split; [exact Htask | exact Htrace].
Defined.

(** ** A batch on its own *)

Lemma server_runJob_from_trace (gyms : list Server.Gym) (i : nat)
    (world : nat -> Server.Sampling) (db : DB) (tr : list Event) :
  Server.runJob_from i gyms world db tr
  = ((Server.runJob_from i gyms world db []).1,
     tr ++ (Server.runJob_from i gyms world db []).2).
Proof.
  revert i db tr. induction gyms as [|g gyms IH]; intros i db tr.
  - cbn. rewrite app_nil_r. reflexivity.
  - cbn [Server.runJob_from].
    destruct (Server.fetchGymData g (world i) db) as [[db' writes] ret].
    rewrite IH. rewrite (IH (S i) db' ([] ++ _)). cbn [fst snd app].
    rewrite <- app_assoc. reflexivity.
Qed.

(** X23.  With no call in flight, a trigger starts a batch that, as long
    as nothing else is handled before it ends, fetches the tracked gyms
    one after the other in the order of the list, each fetch starting
    when the one before has settled: it leaves the document and adds the
    effects that [runJob] run on its own gives, and ends with no call in
    flight and the same gyms. *)
Theorem server_lone_batch (t : Server.Trigger) (s : Server.State)
    (world : nat -> Server.Sampling) :
  Server.tasks s = [] ->
  let s' := Server.exec (Server.step s (Server.Fire t))
              (imap (fun j _ => Server.Settles 0 (world j)) (Server.gyms s)) in
  Server.db s' = (Server.runJob (Server.gyms s) world (Server.db s)).1 /\
  Server.trace s'
  = Server.trace s ++ (Server.runJob (Server.gyms s) world (Server.db s)).2 /\
  Server.tasks s' = [] /\
  Server.gyms s' = Server.gyms s.
Proof.
  destruct s as [d gs ts tr]. cbn [Server.tasks Server.gyms Server.db Server.trace].
  intros ->. cbv zeta.
  destruct gs as [|g rest]; [cbn; rewrite app_nil_r; repeat split|].
  destruct (server_batch_alone_from rest [] g world d tr)
    as (Hrun & Htasks & Hgyms).
  cbv zeta in Hrun, Htasks, Hgyms.
  cbn [length app Nat.add] in Hrun, Htasks, Hgyms.
  unfold Server.step, Server.start_batch.
  cbn [Server.gyms Server.db Server.tasks Server.trace app].
  rewrite server_runJob_from_trace in Hrun.
  pose proof (f_equal fst Hrun) as Hdb.
  pose proof (f_equal snd Hrun) as Htr.
  cbn [fst snd] in Hdb, Htr.
  unfold Server.runJob. rewrite Hdb, Htr, Htasks, Hgyms. repeat split.
Qed.

Lemma server_lone_batch_witness :
  let world := fun _ : nat =>
    {| Server.reply := Reply true "41"; Server.now := 5000;
       Server.save_ok := true |} in
  let s := Server.booted Server.db0 in
  let s' := Server.exec (Server.step s (Server.Fire Server.Timer))
              (imap (fun j _ => Server.Settles 0 (world j)) (Server.gyms s)) in
  Server.db s' !! "glattpark" = Some [mkPoint 5000 41 300] /\
  Server.tasks s' = [].
Proof.
  intros world s s'.
  destruct (server_lone_batch Server.Timer s world eq_refl)
    as (Hdb & _ & Htasks & _).
  split; [|exact Htasks].
  cbv zeta in Hdb. unfold s'. rewrite Hdb. reflexivity.
Defined.
